(** * API-Server: the JSON-file CRUD controllers and the boundary error handler

    A shallow embedding of [src/models/dataLoader.js],
    [src/controllers/userController.js], [src/controllers/productController.js],
    [src/middlewares/errorHandler.js], the two routers and [src/app.js],
    together with the part of the JavaScript runtime these files rely on
    (Number arithmetic and comparison, [parseInt], [parseFloat], [ToNumber],
    [Math.max], object spread, and the TypeError and RangeError that the
    conversions and a call with a spread array can throw). *)

From Stdlib Require Import ZArith Floats String Ascii List Bool Lia.
From stdpp Require Import gmap strings list fin_maps.

Set Warnings "-inexact-float,-register-all".
Local Open Scope Z_scope.

(** ** The JavaScript runtime the controllers use

    Numbers are IEEE-754 binary64 values, here the kernel's primitive floats.
    Strings are sequences of code units; the model covers the code units
    0..255 (one [ascii] each). *)
Module Js.

Definition number : Type := float.

(** *** Number::equal, Number::lessThan and the operators built on them *)

(** [x === y] on Numbers (ECMAScript Number::equal): NaN equals nothing,
    and +0 equals -0. *)
Definition Number_equal (x y : number) : bool :=
  if PrimFloat.is_nan x then false
  else if PrimFloat.is_nan y then false
  else PrimFloat.eqb x y.

(** [x >= y]: IsLessThan(x, y) must answer [false]; it answers [undefined]
    when an operand is NaN. *)
Definition Number_ge (x y : number) : bool :=
  match PrimFloat.compare x y with
  | FEq | FGt => true
  | FLt | FNotComparable => false
  end.

(** [x <= y]: IsLessThan(y, x) must answer [false]. *)
Definition Number_le (x y : number) : bool :=
  match PrimFloat.compare y x with
  | FEq | FGt => true
  | FLt | FNotComparable => false
  end.

(** [x > y], as used by Math.max. *)
Definition Number_gt (x y : number) : bool :=
  match PrimFloat.compare y x with
  | FLt => true
  | _ => false
  end.

(** ToBoolean on a Number: NaN, +0 and -0 are falsy. *)
Definition Number_truthy (x : number) : bool :=
  negb (PrimFloat.is_nan x || PrimFloat.is_zero x).

(** *** The Number value for a mathematical value *)

Definition round_half_even (n d : Z) : Z :=
  let q := n / d in
  let r := n mod d in
  match 2 * r ?= d with
  | Lt => q
  | Gt => q + 1
  | Eq => if Z.even q then q else q + 1
  end.

(** The binary64 value nearest to [n / d] (ties to even) for [0 <= n] and
    [0 < d]; it is +Infinity from 2^1024 on. *)
Definition Number_of_ratio (n d : Z) : number :=
  if n =? 0 then 0%float
  else
    let k0 := Z.log2 n - Z.log2 d in
    let k :=
      if 0 <=? k0
      then (if d * 2 ^ k0 <=? n then k0 else k0 - 1)
      else (if d <=? n * 2 ^ (- k0) then k0 else k0 - 1) in
    let e := Z.max (k - 52) (-1074) in
    let m :=
      if 0 <=? e
      then round_half_even n (d * 2 ^ e)
      else round_half_even (n * 2 ^ (- e)) d in
    Z.ldexp (PrimFloat.of_uint63 (Uint63.of_Z m)) e.

Definition Number_of_Z (z : Z) : number :=
  if z <? 0 then PrimFloat.opp (Number_of_ratio (- z) 1)
  else Number_of_ratio z 1.

Definition Number_of_nat (n : nat) : number := Number_of_Z (Z.of_nat n).

(** *** Scanning strings *)

Definition code (c : ascii) : Z := Z.of_N (N_of_ascii c).

(** WhiteSpace and LineTerminator code units below 256: TAB, LF, VT, FF, CR,
    SP and NBSP. *)
Definition is_white_space (c : ascii) : bool :=
  let n := code c in
  ((9 <=? n) && (n <=? 13)) || (n =? 32) || (n =? 160).

Fixpoint trim_start (s : string) : string :=
  match s with
  | String c r => if is_white_space c then trim_start r else s
  | EmptyString => EmptyString
  end.

Fixpoint trim_end (s : string) : string :=
  match s with
  | String c r =>
      match trim_end r with
      | EmptyString => if is_white_space c then EmptyString else String c EmptyString
      | r' => String c r'
      end
  | EmptyString => EmptyString
  end.

Definition trim (s : string) : string := trim_end (trim_start s).

(** The value of a code unit as a digit: 0-9, then a-z or A-Z for 10..35. *)
Definition digit_value (c : ascii) : option Z :=
  let n := code c in
  if (48 <=? n) && (n <=? 57) then Some (n - 48)
  else if (97 <=? n) && (n <=? 122) then Some (n - 87)
  else if (65 <=? n) && (n <=? 90) then Some (n - 55)
  else None.

Definition radix_digit (R : Z) (c : ascii) : option Z :=
  match digit_value c with
  | Some v => if v <? R then Some v else None
  | None => None
  end.

(** The longest prefix of radix-[R] digits, and what follows it. *)
Fixpoint span_digits (R : Z) (s : string) : list Z * string :=
  match s with
  | String c r =>
      match radix_digit R c with
      | Some v => let '(ds, rest) := span_digits R r in (v :: ds, rest)
      | None => ([], s)
      end
  | EmptyString => ([], EmptyString)
  end.

Definition integer_value (R : Z) (ds : list Z) : Z :=
  fold_left (fun acc d => acc * R + d) ds 0.

Definition strip_prefix (p s : string) : option string :=
  if String.prefix p s
  then Some (String.substring (String.length p) (String.length s - String.length p) s)
  else None.

(** A leading sign: [true] for a minus. *)
Definition split_sign (s : string) : bool * string :=
  match s with
  | String "-" r => (true, r)
  | String "+" r => (false, r)
  | _ => (false, s)
  end.

(** *** parseInt(string) with no radix argument (ECMAScript 19.2.5) *)
Definition parseInt (input : string) : number :=
  let trimmed := trim_start input in
  let '(negative, unsigned) := split_sign trimmed in
  let '(R, body) :=
    match unsigned with
    | String "0" (String "x" r) => (16, r)
    | String "0" (String "X" r) => (16, r)
    | _ => (10, unsigned)
    end in
  let '(digits, _) := span_digits R body in
  match digits with
  | [] => PrimFloat.nan
  | _ =>
      let mathInt := integer_value R digits in
      if mathInt =? 0 then (if negative then (-0)%float else 0%float)
      else Number_of_Z (if negative then - mathInt else mathInt)
  end.

(** *** StrDecimalLiteral, parseFloat and StringToNumber *)

(** ExponentPart: [e] or [E], an optional sign and at least one digit.
    Returns the exponent and the rest; exponent 0 and the whole input when
    there is no complete exponent part. *)
Definition exponent_part (s : string) : Z * string :=
  match s with
  | String c r =>
      if (code c =? 101) || (code c =? 69) then
        let '(neg, r') := split_sign r in
        match span_digits 10 r' with
        | ([], _) => (0, s)
        | (ds, rest) =>
            let x := integer_value 10 ds in
            (if neg then - x else x, rest)
        end
      else (0, s)
  | EmptyString => (0, s)
  end.

(** The longest prefix of [s] that is a StrUnsignedDecimalLiteral, as its
    Number value, with the rest of [s]. *)
Definition unsigned_decimal_literal (s : string) : option (number * string) :=
  match strip_prefix "Infinity" s with
  | Some rest => Some (PrimFloat.infinity, rest)
  | None =>
      let '(int_digits, after_int) := span_digits 10 s in
      let '(frac_digits, after_frac) :=
        match after_int with
        | String "." r => span_digits 10 r
        | _ => ([], after_int)
        end in
      match int_digits, frac_digits with
      | [], [] => None
      | _, _ =>
          let '(ex, rest) := exponent_part after_frac in
          let mant := integer_value 10 (int_digits ++ frac_digits) in
          let e10 := ex - Z.of_nat (List.length frac_digits) in
          let v :=
            if 0 <=? e10 then Number_of_ratio (mant * 10 ^ e10) 1
            else Number_of_ratio mant (10 ^ (- e10)) in
          Some (v, rest)
      end
  end.

Definition StrDecimalLiteral (s : string) : option (number * string) :=
  let '(neg, r) := split_sign s in
  match unsigned_decimal_literal r with
  | Some (v, rest) => Some (if neg then PrimFloat.opp v else v, rest)
  | None => None
  end.

(** parseFloat(string) (ECMAScript 19.2.4). *)
Definition parseFloat (input : string) : number :=
  match StrDecimalLiteral (trim_start input) with
  | Some (v, _) => v
  | None => PrimFloat.nan
  end.

(** A NonDecimalIntegerLiteral body: every code unit a radix-[R] digit. *)
Definition radix_literal (R : Z) (body : string) : number :=
  match span_digits R body with
  | ([], _) => PrimFloat.nan
  | (ds, EmptyString) => Number_of_Z (integer_value R ds)
  | (_, String _ _) => PrimFloat.nan
  end.

(** StringToNumber (ECMAScript 7.1.4.1.1): the whole trimmed string must be
    a numeric literal; the empty string is +0. *)
Definition StringToNumber (s : string) : number :=
  match trim s with
  | EmptyString => 0%float
  | String "0" (String "x" r) | String "0" (String "X" r) => radix_literal 16 r
  | String "0" (String "o" r) | String "0" (String "O" r) => radix_literal 8 r
  | String "0" (String "b" r) | String "0" (String "B" r) => radix_literal 2 r
  | t =>
      match StrDecimalLiteral t with
      | Some (v, EmptyString) => v
      | _ => PrimFloat.nan
      end
  end.

(** *** Number.prototype.toString(16) on a non-negative integer

    The digits come out last first; [fuel] bounds their number and the
    binary length of [n] is enough of it. *)

Definition hex_digit (d : Z) : ascii :=
  ascii_of_N (Z.to_N (if d <? 10 then 48 + d else 87 + d)).

Fixpoint hex_digits (fuel : nat) (n : Z) (acc : string) : string :=
  match fuel with
  | O => acc
  | S fuel' =>
      let acc' := String (hex_digit (n mod 16)) acc in
      if n / 16 =? 0 then acc' else hex_digits fuel' (n / 16) acc'
  end.

Definition toString16 (n : N) : string :=
  hex_digits (S (Z.to_nat (Z.log2 (Z.of_N n)))) (Z.of_N n) EmptyString.

(** String.prototype.substring(start) with no end argument. *)
Fixpoint substring_from (start : nat) (s : string) : string :=
  match start, s with
  | O, _ => s
  | S _, EmptyString => EmptyString
  | S n, String _ r => substring_from n r
  end.

(** *** Values *)

(** A JavaScript value as this program meets it: the values JSON.parse
    builds, and [undefined] for a property that is not there. *)
Inductive value : Type :=
| VUndefined
| VNull
| VBool (b : bool)
| VNum (n : number)
| VStr (s : string)
| VArr (items : list value)
| VObj (props : gmap string value).

(** [o.k]: the property, or [undefined]. *)
Definition Get (o : gmap string value) (k : string) : value :=
  default VUndefined (o !! k).

(** ToBoolean. *)
Definition ToBoolean (v : value) : bool :=
  match v with
  | VUndefined | VNull => false
  | VBool b => b
  | VNum n => Number_truthy n
  | VStr s => negb (String.eqb s EmptyString)
  | VArr _ | VObj _ => true
  end.

(** [a || b]. *)
Definition or_else (a b : value) : value := if ToBoolean a then a else b.

(** What the runtime itself throws in this program. *)
Inductive exception : Type :=
| TypeError    (* ToPrimitive finds no primitive *)
| RangeError.  (* a call has more arguments than the stack takes *)

Definition throws (A : Type) : Type := (exception + A)%type.

(** Whether ToPrimitive finds a primitive for [v]. For a plain object it
    calls the inherited valueOf, which returns the object, and then
    [toString]: the inherited one answers "[object Object]", but an own
    [toString] property, which in parsed JSON is never a function, leaves
    nothing to call and a TypeError is thrown. For an array it joins the
    strings of the elements, and so throws when one of them, at any depth
    of arrays, is such an object (null and undefined elements are not
    converted). *)
Fixpoint has_primitive (v : value) : bool :=
  match v with
  | VUndefined | VNull | VBool _ | VNum _ | VStr _ => true
  | VArr items => forallb has_primitive items
  | VObj props => match props !! "toString" with Some _ => false | None => true end
  end.

(** The Number of a value that has a primitive. A plain object's primitive
    is the string "[object Object]", which is not numeric. An array's
    primitive is its elements' strings joined by commas: with two elements or
    more the comma makes it non-numeric, with none it is the empty string,
    and with one it is that element's string (empty for null and undefined,
    and ToNumber(ToString(n)) is [n] for a Number [n], -0 printing as "0"). *)
Fixpoint Number_of (v : value) : number :=
  match v with
  | VUndefined => PrimFloat.nan
  | VNull => 0%float
  | VBool b => if b then 1%float else 0%float
  | VNum n => n
  | VStr s => StringToNumber s
  | VObj _ => PrimFloat.nan
  | VArr [] => 0%float
  | VArr [x] =>
      match x with
      | VUndefined | VNull => 0%float
      | VBool _ => PrimFloat.nan
      | VNum n => if PrimFloat.is_zero n then 0%float else n
      | VStr s => StringToNumber s
      | VArr _ => Number_of x
      | VObj _ => PrimFloat.nan
      end
  | VArr (_ :: _ :: _) => PrimFloat.nan
  end.

(** ToNumber: a TypeError when there is no primitive. *)
Definition ToNumber (v : value) : throws number :=
  if has_primitive v then inr (Number_of v) else inl TypeError.

(** [x === y] (IsStrictlyEqual). Arrays and objects are equal only to
    themselves; the operands this program compares are never one object, so
    the comparison of two of them is [false]. *)
Definition IsStrictlyEqual (x y : value) : bool :=
  match x, y with
  | VUndefined, VUndefined => true
  | VNull, VNull => true
  | VBool a, VBool b => Bool.eqb a b
  | VNum a, VNum b => Number_equal a b
  | VStr a, VStr b => String.eqb a b
  | _, _ => false
  end.

(** [x >= y] and [x <= y] where [y] is a Number: [x] is converted with
    ToNumber (its primitive is compared as a Number because [y] is one). *)
Definition ge_Number (x : value) (y : number) : throws bool :=
  match ToNumber x with
  | inl e => inl e
  | inr n => inr (Number_ge n y)
  end.

Definition le_Number (x : value) (y : number) : throws bool :=
  match ToNumber x with
  | inl e => inl e
  | inr n => inr (Number_le n y)
  end.

(** Math.max(...args) (ECMAScript 21.3.2.24): every argument is coerced
    first; the scan starts from -Infinity, answers NaN at the first NaN and
    ranks +0 above -0. *)
Definition is_pos_zero (x : number) : bool :=
  PrimFloat.is_zero x && negb (PrimFloat.get_sign x).
Definition is_neg_zero (x : number) : bool :=
  PrimFloat.is_zero x && PrimFloat.get_sign x.

Fixpoint Math_max_from (highest : number) (coerced : list number) : number :=
  match coerced with
  | [] => highest
  | x :: rest =>
      if PrimFloat.is_nan x then PrimFloat.nan
      else if is_pos_zero x && is_neg_zero highest then Math_max_from x rest
      else if Number_gt x highest then Math_max_from x rest
      else Math_max_from highest rest
  end.

(** ToNumber of every argument, in order. *)
Fixpoint coerce_all (args : list value) : throws (list number) :=
  match args with
  | [] => inr []
  | v :: rest =>
      match ToNumber v with
      | inl e => inl e
      | inr n =>
          match coerce_all rest with
          | inl e => inl e
          | inr ns => inr (n :: ns)
          end
      end
  end.

Definition Math_max (args : list value) : throws number :=
  match coerce_all args with
  | inl e => inl e
  | inr coerced => inr (Math_max_from PrimFloat.neg_infinity coerced)
  end.

(** [f(...args)]: every element of [args] becomes an argument of the call.
    The engine throws a RangeError when they do not fit its stack; [limit] is
    how many fit. *)
Definition spread_arguments {A} (limit : N) (args : list A) : throws (list A) :=
  if (limit <? N.of_nat (length args))%N then inl RangeError else inr args.

(** Object spread [{...a, ...b}]: the properties of [a] and of [b], those of
    [b] winning. *)
Definition spread (a b : gmap string value) : gmap string value := b ∪ a.

(** *** Arrays *)

(** Array.prototype.findIndex: the first index whose element passes, or -1. *)
Fixpoint findIndex {A} (p : A -> bool) (l : list A) : Z :=
  match l with
  | [] => -1
  | x :: rest =>
      if p x then 0
      else let i := findIndex p rest in if i =? -1 then -1 else i + 1
  end.

(** Array.prototype.filter with a callback that may throw: the elements are
    tested in order and the first throw ends the call. *)
Fixpoint filter_throwing {A} (f : A -> throws bool) (l : list A) : throws (list A) :=
  match l with
  | [] => inr []
  | x :: rest =>
      match f x with
      | inl e => inl e
      | inr keep =>
          match filter_throwing f rest with
          | inl e => inl e
          | inr kept => inr (if keep then x :: kept else kept)
          end
      end
  end.

(** [l.splice(i, 1)] for an index inside [l]: the removed elements, and the
    array after the call. *)
Definition splice1 {A} (i : nat) (l : list A) : list A * list A :=
  (take 1 (drop i l), take i l ++ drop (S i) l).

(** *** Values of a parsed query string

    Express parses the query with qs: a parameter is a string, or an array
    or an object when the query repeats it or writes it with brackets. An
    object may have any key, [toString] included. *)
Inductive qvalue : Type :=
| QStr (s : string)
| QArr (items : list qvalue)
| QObj (props : list (string * qvalue)).

Definition join (sep : string) (parts : list string) : string :=
  match parts with
  | [] => EmptyString
  | p :: rest => fold_left (fun acc q => acc ++ sep ++ q)%string rest p
  end.

Fixpoint qToString (q : qvalue) : string :=
  match q with
  | QStr s => s
  | QArr items => join "," (map qToString items)
  | QObj _ => "[object Object]"
  end.

Definition qToBoolean (q : option qvalue) : bool :=
  match q with
  | None => false
  | Some (QStr s) => negb (String.eqb s EmptyString)
  | Some (QArr _) | Some (QObj _) => true
  end.

(** [v === q] for a query value [q]: only two strings can be equal. *)
Definition equals_query (v : value) (q : option qvalue) : bool :=
  match q with
  | None => IsStrictlyEqual v VUndefined
  | Some (QStr s) => IsStrictlyEqual v (VStr s)
  | Some (QArr _) | Some (QObj _) => false
  end.

(** Whether ToString finds a primitive for a query value: not for an
    object with an own [toString] key, nor for an array holding one. *)
Fixpoint qhas_primitive (q : qvalue) : bool :=
  match q with
  | QStr _ => true
  | QArr items => forallb qhas_primitive items
  | QObj props => negb (existsb (fun kv => String.eqb (fst kv) "toString") props)
  end.

(** [parseFloat(q)]: the argument is converted with ToString first. *)
Definition parseFloat_query (q : option qvalue) : throws number :=
  match q with
  | None => inr (parseFloat "undefined")
  | Some q =>
      if qhas_primitive q then inr (parseFloat (qToString q)) else inl TypeError
  end.

End Js.

Import Js.

(** A record of a collection, a request body, an error envelope: a
    JavaScript object, as the map from its own property names to values. *)
Abbreviation record := (gmap string value).

(** ** Errors and the state of the data directory *)

(** An Error object, by the three properties this program reads. The
    [stack] of a fresh Error starts with its header line; the call-site
    frames after it are left out. *)
Record error : Type := mkError
  { message : value; statusCode : value; stack : value }.

Definition new_Error (msg : string) : error :=
  {| message := VStr msg;
     statusCode := VUndefined;
     stack := VStr ("Error: " ++ msg) |}.

(** The Error the runtime throws: the [message] is the one V8 gives it, and
    the [stack] starts with the name of its class. *)
Definition thrown (x : exception) : error :=
  match x with
  | TypeError =>
      {| message := VStr "Cannot convert object to primitive value";
         statusCode := VUndefined;
         stack := VStr "TypeError: Cannot convert object to primitive value" |}
  | RangeError =>
      {| message := VStr "Maximum call stack size exceeded";
         statusCode := VUndefined;
         stack := VStr "RangeError: Maximum call stack size exceeded" |}
  end.

(** [error.statusCode = code]. *)
Definition set_statusCode (code : number) (e : error) : error :=
  {| message := message e; statusCode := VNum code; stack := stack e |}.

(** A file of the data directory: either text that JSON.parse turns into an
    array of objects, kept here as that array, or text that JSON.parse
    rejects. Writing is taken to be lossless: what [saveJsonData] is handed
    is what the next [loadJsonData] returns, as JSON.stringify followed by
    JSON.parse does for every collection whose Numbers are finite and not
    -0 (it writes NaN and the infinities as null and -0 as 0). Files whose
    text parses to something other than an array of objects are not
    modelled. *)
Inductive file : Type :=
| Json (data : list record)
| Unparseable.

(** What a handler runs in. The data directory: its files by name (a name
    that is not there is a missing file), and whether writing to it fails.
    The engine: how many arguments a call with a spread array takes before
    it throws a RangeError (some tens of thousands under Node's default
    stack size). *)
Record world : Type := mkWorld
  { disk : gmap string file; read_only : bool; argument_limit : N }.

(** A computation that reads and writes the data directory and may throw. *)
Definition M (A : Type) : Type := world -> (error + A) * world.

Definition ret {A} (a : A) : M A := fun w => (inr a, w).
Definition bind {A B} (k : A -> M B) (m : M A) : M B :=
  fun w =>
    match m w with
    | (inl e, w') => (inl e, w')
    | (inr a, w') => k a w'
    end.

#[global] Instance M_bind : MBind M := @bind.

(** An expression that may throw, evaluated inside a handler. *)
Definition evaluate {A} (t : throws A) : M A :=
  fun w =>
    match t with
    | inl x => (inl (thrown x), w)
    | inr a => (inr a, w)
    end.

(** [f(...args)]. *)
Definition call_with_spread {A} (args : list A) : M (list A) :=
  fun w => evaluate (spread_arguments (argument_limit w) args) w.

(** ** src/models/dataLoader.js

    Both functions catch whatever [fs] or [JSON] throws, log it with
    [console.error] and throw an Error of their own. *)
Module DataLoader.

Definition loadJsonData (filename : string) : M (list record) :=
  fun w =>
    match disk w !! filename with
    | Some (Json data) => (inr data, w)
    | Some Unparseable | None =>
        (inl (new_Error ("Could not load data from " ++ filename)), w)
    end.

Definition saveJsonData (filename : string) (data : list record) : M unit :=
  fun w =>
    if read_only w
    then (inl (new_Error ("Could not save data to " ++ filename)), w)
    else (inr tt, {| disk := <[filename := Json data]> (disk w);
                     read_only := read_only w;
                     argument_limit := argument_limit w |}).

End DataLoader.
Import DataLoader.

(** ** Requests, responses and the shape of a controller *)

Record request : Type := mkRequest
  { params_id : string;             (* req.params.id *)
    query : gmap string qvalue;     (* req.query *)
    body : record }.                (* req.body *)

(** [res.status(code).json(payload)]; [json] is undefined in a response
    that is ended without a body. *)
Record response : Type := mkResponse
  { status : value; json : value }.

(** What a controller ends with: a response sent, or [next(error)]. *)
Inductive outcome : Type :=
| Sent (r : response)
| Next (err : error).

(** [res.json(payload)]: the status stays at its default, 200. *)
Definition res_json (payload : record) : outcome :=
  Sent {| status := VNum 200%float; json := VObj payload |}.

(** [res.status(code).json(payload)]. *)
Definition res_status_json (code : number) (payload : record) : outcome :=
  Sent {| status := VNum code; json := VObj payload |}.

(** [try { ... } catch (error) { next(error) }]. *)
Definition try_next (m : M outcome) (w : world) : outcome * world :=
  match m w with
  | (inl e, w') => (Next e, w')
  | (inr o, w') => (o, w')
  end.

(** [{ status: 'success', data: { key: v } }]. *)
Definition success (key : string) (v : value) : record :=
  <["data" := VObj {[ key := v ]}]> {[ "status" := VStr "success" ]}.

(** [{ status: 'success', results: items.length, data: { key: items } }]. *)
Definition success_list (key : string) (items : list record) : record :=
  <["data" := VObj {[ key := VArr (VObj <$> items) ]}]>
    (<["results" := VNum (Number_of_nat (length items))]>
       {[ "status" := VStr "success" ]}).

(** [items[i]] for an index inside [items]. *)
Definition item (items : list record) (i : nat) : record :=
  default ∅ (items !! i).

(** The error of a missing record: [new Error(msg)] with [statusCode = 404]. *)
Definition not_found (msg : string) : error :=
  set_statusCode 404%float (new_Error msg).

(** ** src/middlewares/errorHandler.js *)
Module ErrorHandler.

(** [NODE_ENV] is [process.env.NODE_ENV]. The two [console.error] calls
    write to the log only. *)
Definition errorHandler (NODE_ENV : option string) (err : error) : response :=
  let statusCode := or_else (statusCode err) (VNum 500%float) in
  {| status := statusCode;
     json :=
       VObj
         (spread
            (<["message" := or_else (message err) (VStr "Internal server error")]>
               (<["statusCode" := statusCode]> {[ "status" := VStr "error" ]}))
            (if bool_decide (NODE_ENV = Some "development")
             then {[ "stack" := stack err ]}
             else ∅)) |}.

End ErrorHandler.

(** ** src/controllers/userController.js *)
Module UserController.

(** What [Math.random().toString(16)] and [Date.now()] give during a call. *)
Record clock : Type := mkClock
  { random_toString16 : string; Date_now : N }.

Definition generateRandomId (c : clock) : string :=
  (substring_from 2 (random_toString16 c) ++ toString16 (Date_now c))%string.

Definition getAllUsers (req : request) : world -> outcome * world :=
  try_next (
    users ← loadJsonData "users.json";
    ret (res_json (success_list "users" users))).

Definition getUserById (req : request) : world -> outcome * world :=
  try_next (
    users ← loadJsonData "users.json";
    match List.find (fun u => IsStrictlyEqual (Get u "id") (VStr (params_id req))) users with
    | None => ret (Next (not_found "User not found"))
    | Some user => ret (res_json (success "user" (VObj user)))
    end).

Definition createUser (c : clock) (req : request) : world -> outcome * world :=
  try_next (
    users ← loadJsonData "users.json";
    let newUser :=
      spread
        {[ "id" := or_else (Get (body req) "id") (VStr (generateRandomId c)) ]}
        (body req) in
    let users := users ++ [newUser] in
    _ ← saveJsonData "users.json" users;
    ret (res_status_json 201%float (success "user" (VObj newUser)))).

Definition updateUser (req : request) : world -> outcome * world :=
  try_next (
    users ← loadJsonData "users.json";
    let userIndex :=
      findIndex (fun u => IsStrictlyEqual (Get u "id") (VStr (params_id req))) users in
    if userIndex =? -1 then ret (Next (not_found "User not found"))
    else
      let i := Z.to_nat userIndex in
      let users :=
        <[i := <["id" := Get (item users i) "id"]>
                 (spread (item users i) (body req))]> users in
      _ ← saveJsonData "users.json" users;
      ret (res_json (success "user" (VObj (item users i))))).

Definition deleteUser (req : request) : world -> outcome * world :=
  try_next (
    users ← loadJsonData "users.json";
    let userIndex :=
      findIndex (fun u => IsStrictlyEqual (Get u "id") (VStr (params_id req))) users in
    if userIndex =? -1 then ret (Next (not_found "User not found"))
    else
      let '(removed, users) := splice1 (Z.to_nat userIndex) users in
      let deletedUser := match removed with u :: _ => VObj u | [] => VUndefined end in
      _ ← saveJsonData "users.json" users;
      ret (res_json (success "user" deletedUser))).

End UserController.

(** ** src/controllers/productController.js *)
Module ProductController.

(** [p => p.price >= parseFloat(q)] and [p => p.price <= parseFloat(q)]:
    the call of parseFloat is evaluated before the comparison converts the
    price. *)
Definition at_least (q : option qvalue) (p : record) : throws bool :=
  match parseFloat_query q with
  | inl e => inl e
  | inr bound => ge_Number (Get p "price") bound
  end.

Definition at_most (q : option qvalue) (p : record) : throws bool :=
  match parseFloat_query q with
  | inl e => inl e
  | inr bound => le_Number (Get p "price") bound
  end.

Definition getAllProducts (req : request) : world -> outcome * world :=
  try_next (
    products ← loadJsonData "products.json";
    let filteredProducts := products in
    let filteredProducts :=
      if qToBoolean (query req !! "category")
      then List.filter
             (fun p => equals_query (Get p "category") (query req !! "category"))
             filteredProducts
      else filteredProducts in
    filteredProducts ←
      (if qToBoolean (query req !! "minPrice")
       then evaluate (filter_throwing (at_least (query req !! "minPrice")) filteredProducts)
       else ret filteredProducts);
    filteredProducts ←
      (if qToBoolean (query req !! "maxPrice")
       then evaluate (filter_throwing (at_most (query req !! "maxPrice")) filteredProducts)
       else ret filteredProducts);
    ret (res_json (success_list "products" filteredProducts))).

Definition getProductById (req : request) : world -> outcome * world :=
  try_next (
    products ← loadJsonData "products.json";
    let id := parseInt (params_id req) in
    match List.find (fun p => IsStrictlyEqual (Get p "id") (VNum id)) products with
    | None => ret (Next (not_found "Product not found"))
    | Some product => ret (res_json (success "product" (VObj product)))
    end).

(** The id [createProduct] computes before it spreads the body:
    [products.length > 0 ? Math.max(...products.map(p => p.id)) + 1 : 1]. *)
Definition next_id (products : list record) : M number :=
  if (0 <? Z.of_nat (length products))
  then
    args ← call_with_spread (map (fun p => Get p "id") products);
    greatest ← evaluate (Math_max args);
    ret (greatest + 1)%float
  else ret 1%float.

Definition createProduct (req : request) : world -> outcome * world :=
  try_next (
    products ← loadJsonData "products.json";
    id ← next_id products;
    let newProduct := spread {[ "id" := VNum id ]} (body req) in
    let products := products ++ [newProduct] in
    _ ← saveJsonData "products.json" products;
    ret (res_status_json 201%float (success "product" (VObj newProduct)))).

Definition updateProduct (req : request) : world -> outcome * world :=
  try_next (
    products ← loadJsonData "products.json";
    let id := parseInt (params_id req) in
    let productIndex :=
      findIndex (fun p => IsStrictlyEqual (Get p "id") (VNum id)) products in
    if productIndex =? -1 then ret (Next (not_found "Product not found"))
    else
      let i := Z.to_nat productIndex in
      let products :=
        <[i := <["id" := Get (item products i) "id"]>
                 (spread (item products i) (body req))]> products in
      _ ← saveJsonData "products.json" products;
      ret (res_json (success "product" (VObj (item products i))))).

Definition deleteProduct (req : request) : world -> outcome * world :=
  try_next (
    products ← loadJsonData "products.json";
    let id := parseInt (params_id req) in
    let productIndex :=
      findIndex (fun p => IsStrictlyEqual (Get p "id") (VNum id)) products in
    if productIndex =? -1 then ret (Next (not_found "Product not found"))
    else
      let '(removed, products) := splice1 (Z.to_nat productIndex) products in
      let deletedProduct := match removed with p :: _ => VObj p | [] => VUndefined end in
      _ ← saveJsonData "products.json" products;
      ret (res_json (success "product" deletedProduct))).

End ProductController.

(** ** src/routes/userRoutes.js and src/routes/productRoutes.js *)
Module Routes.
Import UserController ProductController.

(** The two routers [app.js] mounts, under /api/v1/users and
    /api/v1/products. *)
Inductive resource : Type := Users | Products.

(** The methods of the [/:id] route of each router. *)
Inductive method : Type := GET | PATCH | DELETE.

Definition route_id (r : resource) (m : method) : request -> world -> outcome * world :=
  match r, m with
  | Users, GET => getUserById
  | Users, PATCH => updateUser
  | Users, DELETE => deleteUser
  | Products, GET => getProductById
  | Products, PATCH => updateProduct
  | Products, DELETE => deleteProduct
  end.

End Routes.

(** * Vocabulary of the properties *)

Import ErrorHandler UserController ProductController Routes.

(** The file behind each resource. *)
Definition file_of (r : resource) : string :=
  match r with Users => "users.json" | Products => "products.json" end.

(** The id a [/:id] route looks for: the path parameter itself for users,
    what parseInt makes of it for products. *)
Definition sought (r : resource) (req : request) : value :=
  match r with
  | Users => VStr (params_id req)
  | Products => VNum (parseInt (params_id req))
  end.

(** The message of the 404 error of each resource. *)
Definition missing (r : resource) : string :=
  match r with Users => "User not found" | Products => "Product not found" end.

(** The key of the record in a success envelope. *)
Definition data_key (r : resource) : string :=
  match r with Users => "user" | Products => "product" end.

(** The world after [saveJsonData filename data] succeeded. *)
Definition written (filename : string) (data : list record) (w : world) : world :=
  {| disk := <[filename := Json data]> (disk w);
     read_only := read_only w;
     argument_limit := argument_limit w |}.

(** [r.id === X]. *)
Definition has_id (X : value) (r : record) : bool :=
  IsStrictlyEqual (Get r "id") X.

(** The three [/:id] operations of products at work on the record [found],
    which stands between [l1] and [l2] in the collection: getById answers
    with it; when the directory can be written, update answers with it
    merged with the payload under its own id and saves that in its place,
    and delete answers with it and saves the collection without it. *)
Definition operates_on (req : request) (w : world)
    (l1 : list record) (found : record) (l2 : list record) : Prop :=
  getProductById req w = (res_json (success "product" (VObj found)), w) /\
  (read_only w = false ->
   let updated := <["id" := Get found "id"]> (spread found (body req)) in
   updateProduct req w =
     (res_json (success "product" (VObj updated)),
      written "products.json" (l1 ++ updated :: l2) w) /\
   deleteProduct req w =
     (res_json (success "product" (VObj found)),
      written "products.json" (l1 ++ l2) w)).

(** A string has a numeric prefix when, after leading white space and an
    optional sign, it starts with a decimal digit. *)
Definition has_numeric_prefix (s : string) : bool :=
  match snd (split_sign (trim_start s)) with
  | String c _ => (48 <=? code c) && (code c <=? 57)
  | EmptyString => false
  end.

(** A query parameter is supplied when it is there and truthy; a record
    satisfies a supplied filter when the filter's test passes on it. *)
Definition supplied (req : request) (name : string) : bool :=
  qToBoolean (query req !! name).

Definition satisfies_category (req : request) (p : record) : bool :=
  equals_query (Get p "category") (query req !! "category").

(** An evaluation is defined when it does not throw, and a test passes
    when it evaluates to true. *)
Definition defined {A} (t : throws A) : bool :=
  match t with inr _ => true | inl _ => false end.

Definition passes (t : throws bool) : bool :=
  match t with inr b => b | inl _ => false end.

Definition satisfies_minPrice (req : request) (p : record) : bool :=
  passes (at_least (query req !! "minPrice") p).

Definition satisfies_maxPrice (req : request) (p : record) : bool :=
  passes (at_most (query req !! "maxPrice") p).

Definition satisfies_all (req : request) (p : record) : bool :=
  (if supplied req "category" then satisfies_category req p else true) &&
  (if supplied req "minPrice" then satisfies_minPrice req p else true) &&
  (if supplied req "maxPrice" then satisfies_maxPrice req p else true).

(** Whether a price bound of the query, when it is there, has a primitive. *)
Definition bound_has_primitive (req : request) (name : string) : bool :=
  match query req !! name with
  | Some q => qhas_primitive q
  | None => true
  end.

(** A record on which the listing's price tests throw: it passes the
    category filter when there is one, and either the minPrice test throws
    on it, or it passes that test (when there is one) and the maxPrice test
    throws on it. *)
Definition price_test_throws (req : request) (p : record) : bool :=
  (if supplied req "category" then satisfies_category req p else true) &&
  ((supplied req "minPrice" && negb (defined (at_least (query req !! "minPrice") p))) ||
   ((if supplied req "minPrice" then satisfies_minPrice req p else true) &&
    supplied req "maxPrice" && negb (defined (at_most (query req !! "maxPrice") p)))).

(** The ids of a collection, record by record, and whether
    [Math.max(...ids)] can be evaluated: the ids fit the arguments of one
    call and each has a primitive. *)
Definition ids (records : list record) : list value :=
  map (fun r => Get r "id") records.

Definition within_limit (w : world) (records : list record) : bool :=
  (N.of_nat (length records) <=? argument_limit w)%N.

Definition ids_have_primitives (records : list record) : bool :=
  forallb has_primitive (ids records).

(** The greatest id, for ids that all have primitives, and the id computed
    from it. *)
Definition greatest_id (records : list record) : number :=
  Math_max_from PrimFloat.neg_infinity (map Number_of (ids records)).

Definition computed_id (records : list record) : number :=
  match records with
  | [] => 1%float
  | _ :: _ => (greatest_id records + 1)%float
  end.

(** An id can be computed for the empty collection, and for one whose ids
    can be passed to [Math.max]. *)
Definition can_compute_id (w : world) (records : list record) : bool :=
  match records with
  | [] => true
  | _ :: _ => within_limit w records && ids_have_primitives records
  end.

(** A Number that is not NaN, as a key whose lexicographic order is the
    order of the Numbers: the sign and class first, then exponent and
    mantissa. *)
Definition rank (f : spec_float) : option (Z * Z * Z) :=
  match f with
  | S754_nan => None
  | S754_infinity true => Some (-2, 0, 0)
  | S754_infinity false => Some (2, 0, 0)
  | S754_zero _ => Some (0, 0, 0)
  | S754_finite true m e => Some (-1, - e, Z.neg m)
  | S754_finite false m e => Some (1, e, Z.pos m)
  end.

Definition lex (a b : Z * Z * Z) : comparison :=
  match a, b with
  | (a1, a2, a3), (b1, b2, b3) =>
      match a1 ?= b1 with
      | Eq => match a2 ?= b2 with Eq => a3 ?= b3 | c => c end
      | c => c
      end
  end.

(** ** Sample data: the collections of the repository's unit tests *)
Module Sample.
Local Open Scope float_scope.

Definition user (id name email : string) : record :=
  <["id" := VStr id]> (<["name" := VStr name]> {[ "email" := VStr email ]}).

Definition mockUsers : list record :=
  [ user "1" "User 1" "user1@example.com";
    user "2" "User 2" "user2@example.com" ].

Definition product (id : number) (name : string) (price : number)
    (category : string) (stock : number) : record :=
  <["id" := VNum id]>
    (<["name" := VStr name]>
       (<["price" := VNum price]>
          (<["category" := VStr category]> {[ "stock" := VNum stock ]}))).

Definition mockProducts : list record :=
  [ product 1 "Product 1" 99.99 "electronics" 10;
    product 2 "Product 2" 199.99 "electronics" 5;
    product 3 "Product 3" 29.99 "accessories" 20 ].

Definition world_of (users products : list record) : world :=
  {| disk := <["users.json" := Json users]> {[ "products.json" := Json products ]};
     read_only := false;
     argument_limit := 100000 |}.

Definition mockWorld : world := world_of mockUsers mockProducts.

(** Two users and two products under one id. *)
Definition twinUsers : list record :=
  [ user "1" "Ann" "ann@example.com"; user "1" "Bob" "bob@example.com" ].

Definition twinProducts : list record :=
  [ product 7 "Lamp" 10 "home" 1; product 7 "Desk" 20 "home" 2 ].

Definition twinWorld : world := world_of twinUsers twinProducts.

Definition request_for (id : string) (payload : record) : request :=
  {| params_id := id; query := ∅; body := payload |}.

Definition request_query (q : gmap string qvalue) : request :=
  {| params_id := EmptyString; query := q; body := ∅ |}.

End Sample.

(** ** src/app.js *)
Module App.
Import ErrorHandler UserController ProductController Routes.

(** The methods of the [/] route of each router. *)
Inductive root_method : Type := GET_all | POST.

Definition route_root (c : clock) (r : resource) (m : root_method)
    : request -> world -> outcome * world :=
  match r, m with
  | Users, GET_all => getAllUsers
  | Users, POST => createUser c
  | Products, GET_all => getAllProducts
  | Products, POST => createProduct
  end.

(** [app.get('/')]. *)
Definition welcome (req : request) (w : world) : outcome * world :=
  (res_json (<["message" := VStr "Welcome to the API"]> {[ "status" := VStr "success" ]}),
   w).

(** [app.get('/api/v1')]. *)
Definition api_info (req : request) (w : world) : outcome * world :=
  (res_json
     (<["endpoints" :=
          VObj (<["products" := VStr "/api/v1/products"]>
                  {[ "users" := VStr "/api/v1/users" ]})]>
        (<["message" := VStr "API v1"]> {[ "status" := VStr "success" ]})),
   w).

(** [app.all('*')], for a request whose [originalUrl] no route above took. *)
Definition not_found_route (originalUrl : string) (req : request) (w : world)
    : outcome * world :=
  (Next (set_statusCode 404%float
           (new_Error ("Could not find " ++ originalUrl ++ " on this server!"))),
   w).

(** [app.use(cors())] for an OPTIONS request: the preflight is answered
    with 204 and no body, and the request goes no further. *)
Definition preflight (req : request) (w : world) : outcome * world :=
  (Sent {| status := VNum 204%float; json := VUndefined |}, w).

(** What [express.json()], [express.urlencoded()] and the router do when
    they cannot read the request (a body that does not parse or is too
    large, a path parameter that does not decode): they pass their error to
    [next], and no route runs. *)
Definition refuse (err : error) (req : request) (w : world) : outcome * world :=
  (Next err, w).

(** Where a request ends up. The middleware comes first: [helmet()] and
    [cors()] set headers, and [cors()] ends an OPTIONS request; the two body
    parsers refuse the request or leave it with [req.body] an object ([{}]
    when there is nothing to parse, and an array counts by its indices);
    [requestLogger] is taken to log and pass on. Then Express's path
    matching sends it to the [/] or the [/:id] route of a router (which may
    refuse the path parameter), to one of the two welcome routes, or past
    all of them (HEAD goes where GET goes). *)
Inductive endpoint : Type :=
| Preflight
| Refused (err : error)
| Welcome
| ApiInfo
| Collection (r : resource) (m : root_method)
| Item (r : resource) (m : method)
| Unmatched (originalUrl : string).

Definition handle (c : clock) (e : endpoint) : request -> world -> outcome * world :=
  match e with
  | Preflight => preflight
  | Refused err => refuse err
  | Welcome => welcome
  | ApiInfo => api_info
  | Collection r m => route_root c r m
  | Item r m => route_id r m
  | Unmatched originalUrl => not_found_route originalUrl
  end.

(** The application: what the middleware and the routes make of the
    request, and [app.use(errorHandler)] for what they pass to [next]. *)
Definition app (NODE_ENV : option string) (c : clock) (e : endpoint)
    (req : request) (w : world) : response * world :=
  match handle c e req w with
  | (Sent r, w') => (r, w')
  | (Next err, w') => (errorHandler NODE_ENV err, w')
  end.

End App.
Import App.

(** ** Further vocabulary *)

(** The request [req] with another path parameter. *)
Definition with_id (s : string) (req : request) : request :=
  {| params_id := s; query := query req; body := body req |}.

(** The resource an endpoint works on, if any. *)
Definition resource_of (e : endpoint) : option resource :=
  match e with
  | Collection r _ | Item r _ => Some r
  | Preflight | Refused _ | Welcome | ApiInfo | Unmatched _ => None
  end.

(** The endpoints that only read. *)
Definition reads_only (e : endpoint) : bool :=
  match e with
  | Collection _ GET_all | Item _ GET => true
  | Preflight | Refused _ | Welcome | ApiInfo | Unmatched _ => true
  | Collection _ POST | Item _ PATCH | Item _ DELETE => false
  end.

(** The error [loadJsonData] throws, and the one [saveJsonData] throws. *)
Definition load_error (r : resource) : error :=
  new_Error ("Could not load data from " ++ file_of r).

Definition save_error (r : resource) : error :=
  new_Error ("Could not save data to " ++ file_of r).



(** How a handler of resource [r] can end in world [w]: with a success
    envelope and the world as it was, with a success envelope and the
    resource's file written, or with one of three errors of the program's
    own or one the runtime threw, and the world as it was. *)
Inductive handled (r : resource) (w : world) : outcome * world -> Prop :=
| handled_read (code : number) (payload : record) :
    code = 200%float \/ code = 201%float ->
    payload !! "status" = Some (VStr "success") ->
    handled r w (Sent {| status := VNum code; json := VObj payload |}, w)
| handled_written (code : number) (payload : record) (data : list record) :
    code = 200%float \/ code = 201%float ->
    payload !! "status" = Some (VStr "success") ->
    read_only w = false ->
    handled r w (Sent {| status := VNum code; json := VObj payload |},
                 written (file_of r) data w)
| handled_load_error :
    (forall data, disk w !! file_of r <> Some (Json data)) ->
    handled r w (Next (load_error r), w)
| handled_save_error :
    read_only w = true ->
    handled r w (Next (save_error r), w)
| handled_not_found :
    handled r w (Next (not_found (missing r)), w)
| handled_thrown (x : exception) :
    r = Products ->
    handled r w (Next (thrown x), w).

(** * Properties *)

(** ** Arrays: find, findIndex, index assignment and splice *)
Section Arrays.
Context {A : Type} (p : A -> bool).

Lemma findIndex_ge (l : list A) : -1 <= findIndex p l.
Proof.
  induction l as [|x l IH]; simpl; [lia|].
  destruct (p x); [lia|].
  destruct (Z.eqb_spec (findIndex p l) (-1)); lia.
Qed.

Lemma findIndex_absent (l : list A) :
  Forall (fun x => p x = false) l -> findIndex p l = -1.
Proof.
  induction 1 as [|x l Hx _ IH]; simpl; [reflexivity|].
  rewrite Hx, IH. reflexivity.
Qed.

Lemma findIndex_first (l1 l2 : list A) (x : A) :
  Forall (fun y => p y = false) l1 -> p x = true ->
  findIndex p (l1 ++ x :: l2) = Z.of_nat (length l1).
Proof.
  intros H Hx. induction H as [|y l1 Hy _ IH]; simpl.
  - rewrite Hx. reflexivity.
  - rewrite Hy, IH.
    destruct (Z.eqb_spec (Z.of_nat (length l1)) (-1)); lia.
Qed.

Lemma find_absent (l : list A) :
  Forall (fun x => p x = false) l -> List.find p l = None.
Proof.
  induction 1 as [|x l Hx _ IH]; simpl; [reflexivity|].
  rewrite Hx. exact IH.
Qed.

Lemma find_first (l1 l2 : list A) (x : A) :
  Forall (fun y => p y = false) l1 -> p x = true ->
  List.find p (l1 ++ x :: l2) = Some x.
Proof.
  intros H Hx. induction H as [|y l1 Hy _ IH]; simpl.
  - rewrite Hx. reflexivity.
  - rewrite Hy. exact IH.
Qed.

(** A list with a passing element splits at the first one. *)
Lemma first_match (l : list A) :
  Exists (fun x => p x = true) l ->
  exists l1 x l2,
    l = l1 ++ x :: l2 /\ Forall (fun y => p y = false) l1 /\ p x = true.
Proof.
  induction l as [|y l IH]; intros H.
  - inversion H.
  - destruct (p y) eqn:Hy.
    + exists [], y, l. repeat split; [constructor | exact Hy].
    + destruct IH as (l1 & x & l2 & -> & Hl1 & Hx).
      { inversion H as [? ? Hy' | ? ? Hl]; subst; [congruence | exact Hl]. }
      exists (y :: l1), x, l2. repeat split; [constructor; assumption | exact Hx].
Qed.

Lemma splice1_middle (l1 l2 : list A) (x : A) :
  splice1 (length l1) (l1 ++ x :: l2) = ([x], l1 ++ l2).
Proof.
  unfold splice1.
  rewrite drop_app_length, take_app_length. simpl.
  replace (drop (S (length l1)) (l1 ++ x :: l2)) with l2; [reflexivity|].
  rewrite (cons_middle x l1 l2), app_assoc.
  replace (S (length l1)) with (length (l1 ++ [x])).
  - rewrite drop_app_length. reflexivity.
  - rewrite length_app. simpl. lia.
Qed.

Lemma insert_middle (l1 l2 : list A) (x y : A) :
  <[length l1 := y]> (l1 ++ x :: l2) = l1 ++ y :: l2.
Proof.
  rewrite insert_app_r_alt by lia.
  rewrite Nat.sub_diag. reflexivity.
Qed.
End Arrays.

Lemma item_middle (l1 l2 : list record) (x : record) :
  item (l1 ++ x :: l2) (length l1) = x.
Proof.
  unfold item. rewrite list_lookup_middle by reflexivity. reflexivity.
Qed.

(** ** Strict equality and object spread *)

Lemma strict_equal_string (v : value) (s : string) :
  IsStrictlyEqual v (VStr s) = true <-> v = VStr s.
Proof.
  destruct v; simpl; split; try discriminate.
  - intros H. apply String.eqb_eq in H. congruence.
  - intros [= ->]. apply String.eqb_refl.
Qed.

(** NaN is strictly equal to nothing. *)
Lemma strict_equal_NaN (v : value) : IsStrictlyEqual v (VNum PrimFloat.nan) = false.
Proof.
  destruct v; simpl; try reflexivity.
  unfold Number_equal. destruct (PrimFloat.is_nan n); reflexivity.
Qed.

(** Only a Number is strictly equal to a Number. *)
Lemma strict_equal_number (v : value) (x : number) :
  IsStrictlyEqual v (VNum x) = true ->
  exists n, v = VNum n /\ Number_equal n x = true.
Proof.
  destruct v; simpl; try discriminate. intros H. eauto.
Qed.

Lemma lookup_spread (a b : record) (k : string) :
  spread a b !! k = match b !! k with Some v => Some v | None => a !! k end.
Proof.
  unfold spread. rewrite lookup_union.
  destruct (b !! k), (a !! k); reflexivity.
Qed.

Lemma Get_insert_eq (o : record) (k : string) (v : value) : Get (<[k := v]> o) k = v.
Proof. unfold Get. rewrite lookup_insert_eq. reflexivity. Qed.

(** ** The data directory *)

Lemma load_ok (filename : string) (data : list record) (w : world) :
  disk w !! filename = Some (Json data) ->
  loadJsonData filename w = (inr data, w).
Proof. intros H. unfold loadJsonData. rewrite H. reflexivity. Qed.

Lemma save_ok (filename : string) (data : list record) (w : world) :
  read_only w = false ->
  saveJsonData filename data w = (inr tt, written filename data w).
Proof.
  intros H. unfold saveJsonData, written.
  destruct (read_only w); [discriminate | reflexivity].
Qed.

Lemma written_load (filename : string) (data : list record) (w : world) :
  disk (written filename data w) !! filename = Some (Json data).
Proof. unfold written. simpl. apply lookup_insert_eq. Qed.

Lemma index_not_minus_one (n : nat) : (Z.of_nat n =? -1) = false.
Proof. apply Z.eqb_neq. lia. Qed.

(** Unfolds a controller down to its array operations, given that its file
    loads. *)
Ltac run_controller Hload :=
  unfold try_next, mbind, M_bind, bind, ret;
  rewrite (load_ok _ _ _ Hload).

(** ** Users: what each operation does *)
Section Users.
Variables (req : request) (w : world).
Local Abbreviation X := (VStr (params_id req)).

Lemma getUserById_absent (users : list record) :
  disk w !! "users.json" = Some (Json users) ->
  Forall (fun u => has_id X u = false) users ->
  getUserById req w = (Next (not_found "User not found"), w).
Proof.
  intros Hload Habs. unfold getUserById. run_controller Hload.
  unfold has_id in Habs. rewrite (find_absent _ _ Habs). reflexivity.
Qed.

Lemma getUserById_first (l1 l2 : list record) (u : record) :
  disk w !! "users.json" = Some (Json (l1 ++ u :: l2)) ->
  Forall (fun u => has_id X u = false) l1 -> has_id X u = true ->
  getUserById req w = (res_json (success "user" (VObj u)), w).
Proof.
  intros Hload Hl1 Hu. unfold getUserById. run_controller Hload.
  unfold has_id in Hl1, Hu. rewrite (find_first _ _ _ _ Hl1 Hu). reflexivity.
Qed.

Lemma updateUser_absent (users : list record) :
  disk w !! "users.json" = Some (Json users) ->
  Forall (fun u => has_id X u = false) users ->
  updateUser req w = (Next (not_found "User not found"), w).
Proof.
  intros Hload Habs. unfold updateUser. run_controller Hload.
  unfold has_id in Habs. rewrite (findIndex_absent _ _ Habs). reflexivity.
Qed.

Lemma updateUser_first (l1 l2 : list record) (u : record) :
  disk w !! "users.json" = Some (Json (l1 ++ u :: l2)) ->
  read_only w = false ->
  Forall (fun u => has_id X u = false) l1 -> has_id X u = true ->
  let u' := <["id" := Get u "id"]> (spread u (body req)) in
  updateUser req w =
    (res_json (success "user" (VObj u')), written "users.json" (l1 ++ u' :: l2) w).
Proof.
  intros Hload Hrw Hl1 Hu u'. unfold updateUser. run_controller Hload.
  unfold has_id in Hl1, Hu. rewrite (findIndex_first _ _ _ _ Hl1 Hu).
  rewrite index_not_minus_one, Nat2Z.id, item_middle, insert_middle.
  fold u'. rewrite (save_ok _ _ _ Hrw), item_middle. reflexivity.
Qed.

Lemma deleteUser_absent (users : list record) :
  disk w !! "users.json" = Some (Json users) ->
  Forall (fun u => has_id X u = false) users ->
  deleteUser req w = (Next (not_found "User not found"), w).
Proof.
  intros Hload Habs. unfold deleteUser. run_controller Hload.
  unfold has_id in Habs. rewrite (findIndex_absent _ _ Habs). reflexivity.
Qed.

Lemma deleteUser_first (l1 l2 : list record) (u : record) :
  disk w !! "users.json" = Some (Json (l1 ++ u :: l2)) ->
  read_only w = false ->
  Forall (fun u => has_id X u = false) l1 -> has_id X u = true ->
  deleteUser req w =
    (res_json (success "user" (VObj u)), written "users.json" (l1 ++ l2) w).
Proof.
  intros Hload Hrw Hl1 Hu. unfold deleteUser. run_controller Hload.
  unfold has_id in Hl1, Hu. rewrite (findIndex_first _ _ _ _ Hl1 Hu).
  rewrite index_not_minus_one, Nat2Z.id, splice1_middle.
  rewrite (save_ok _ _ _ Hrw). reflexivity.
Qed.
End Users.

(** ** Products: what each operation does *)
Section Products.
Variables (req : request) (w : world).
Local Abbreviation X := (VNum (parseInt (params_id req))).

Lemma getProductById_absent (products : list record) :
  disk w !! "products.json" = Some (Json products) ->
  Forall (fun p => has_id X p = false) products ->
  getProductById req w = (Next (not_found "Product not found"), w).
Proof.
  intros Hload Habs. unfold getProductById. run_controller Hload.
  unfold has_id in Habs. rewrite (find_absent _ _ Habs). reflexivity.
Qed.

Lemma getProductById_first (l1 l2 : list record) (p : record) :
  disk w !! "products.json" = Some (Json (l1 ++ p :: l2)) ->
  Forall (fun p => has_id X p = false) l1 -> has_id X p = true ->
  getProductById req w = (res_json (success "product" (VObj p)), w).
Proof.
  intros Hload Hl1 Hp. unfold getProductById. run_controller Hload.
  unfold has_id in Hl1, Hp. rewrite (find_first _ _ _ _ Hl1 Hp). reflexivity.
Qed.

Lemma updateProduct_absent (products : list record) :
  disk w !! "products.json" = Some (Json products) ->
  Forall (fun p => has_id X p = false) products ->
  updateProduct req w = (Next (not_found "Product not found"), w).
Proof.
  intros Hload Habs. unfold updateProduct. run_controller Hload.
  unfold has_id in Habs. rewrite (findIndex_absent _ _ Habs). reflexivity.
Qed.

Lemma updateProduct_first (l1 l2 : list record) (p : record) :
  disk w !! "products.json" = Some (Json (l1 ++ p :: l2)) ->
  read_only w = false ->
  Forall (fun p => has_id X p = false) l1 -> has_id X p = true ->
  let p' := <["id" := Get p "id"]> (spread p (body req)) in
  updateProduct req w =
    (res_json (success "product" (VObj p')),
     written "products.json" (l1 ++ p' :: l2) w).
Proof.
  intros Hload Hrw Hl1 Hp p'. unfold updateProduct. run_controller Hload.
  unfold has_id in Hl1, Hp. rewrite (findIndex_first _ _ _ _ Hl1 Hp).
  rewrite index_not_minus_one, Nat2Z.id, item_middle, insert_middle.
  fold p'. rewrite (save_ok _ _ _ Hrw), item_middle. reflexivity.
Qed.

Lemma deleteProduct_absent (products : list record) :
  disk w !! "products.json" = Some (Json products) ->
  Forall (fun p => has_id X p = false) products ->
  deleteProduct req w = (Next (not_found "Product not found"), w).
Proof.
  intros Hload Habs. unfold deleteProduct. run_controller Hload.
  unfold has_id in Habs. rewrite (findIndex_absent _ _ Habs). reflexivity.
Qed.

Lemma deleteProduct_first (l1 l2 : list record) (p : record) :
  disk w !! "products.json" = Some (Json (l1 ++ p :: l2)) ->
  read_only w = false ->
  Forall (fun p => has_id X p = false) l1 -> has_id X p = true ->
  deleteProduct req w =
    (res_json (success "product" (VObj p)), written "products.json" (l1 ++ l2) w).
Proof.
  intros Hload Hrw Hl1 Hp. unfold deleteProduct. run_controller Hload.
  unfold has_id in Hl1, Hp. rewrite (findIndex_first _ _ _ _ Hl1 Hp).
  rewrite index_not_minus_one, Nat2Z.id, splice1_middle.
  rewrite (save_ok _ _ _ Hrw). reflexivity.
Qed.
End Products.

(** ** The [/:id] routes of both resources *)
Section IdRoutes.
Variables (r : resource) (req : request) (w : world).

Lemma route_absent (m : method) (records : list record) :
  disk w !! file_of r = Some (Json records) ->
  Forall (fun x => has_id (sought r req) x = false) records ->
  route_id r m req w = (Next (not_found (missing r)), w).
Proof.
  destruct r, m; simpl; intros Hload Habs;
    eauto using getUserById_absent, updateUser_absent, deleteUser_absent,
      getProductById_absent, updateProduct_absent, deleteProduct_absent.
Qed.

Lemma route_get_first (l1 l2 : list record) (x : record) :
  disk w !! file_of r = Some (Json (l1 ++ x :: l2)) ->
  Forall (fun y => has_id (sought r req) y = false) l1 ->
  has_id (sought r req) x = true ->
  route_id r GET req w = (res_json (success (data_key r) (VObj x)), w).
Proof.
  destruct r; simpl; intros Hload Hl1 Hx;
    eauto using getUserById_first, getProductById_first.
Qed.

Lemma route_patch_first (l1 l2 : list record) (x : record) :
  disk w !! file_of r = Some (Json (l1 ++ x :: l2)) ->
  read_only w = false ->
  Forall (fun y => has_id (sought r req) y = false) l1 ->
  has_id (sought r req) x = true ->
  route_id r PATCH req w =
    (res_json (success (data_key r)
                 (VObj (<["id" := Get x "id"]> (spread x (body req))))),
     written (file_of r)
       (l1 ++ <["id" := Get x "id"]> (spread x (body req)) :: l2) w).
Proof.
  destruct r; simpl; intros Hload Hrw Hl1 Hx.
  - exact (updateUser_first req w l1 l2 x Hload Hrw Hl1 Hx).
  - exact (updateProduct_first req w l1 l2 x Hload Hrw Hl1 Hx).
Qed.

Lemma route_delete_first (l1 l2 : list record) (x : record) :
  disk w !! file_of r = Some (Json (l1 ++ x :: l2)) ->
  read_only w = false ->
  Forall (fun y => has_id (sought r req) y = false) l1 ->
  has_id (sought r req) x = true ->
  route_id r DELETE req w =
    (res_json (success (data_key r) (VObj x)), written (file_of r) (l1 ++ l2) w).
Proof.
  destruct r; simpl; intros Hload Hrw Hl1 Hx;
    eauto using deleteUser_first, deleteProduct_first.
Qed.
End IdRoutes.

(** ** Claims about the [/:id] routes *)

(** C3. When no record of the collection has the requested id, getById,
    update and delete of users and of products all end with [next(error)],
    where the error carries statusCode 404 and the message of the resource
    ("User not found", "Product not found"); the data directory is left as
    it was, whether or not it can be written. *)
Theorem absent_id_is_not_found
    (r : resource) (m : method) (req : request) (w : world) (records : list record) :
  disk w !! file_of r = Some (Json records) ->
  Forall (fun x => has_id (sought r req) x = false) records ->
  exists failure : error,
    route_id r m req w = (Next failure, w) /\
    statusCode failure = VNum 404%float /\
    message failure =
      VStr (match r with Users => "User not found" | Products => "Product not found" end).
Proof.
  intros Hload Habs. exists (not_found (missing r)).
  split; [exact (route_absent r req w m records Hload Habs)|].
  destruct r; split; reflexivity.
Qed.

Lemma absent_id_is_not_found_witness :
  exists failure : error,
    route_id Products DELETE (Sample.request_for "999" ∅) Sample.mockWorld
      = (Next failure, Sample.mockWorld) /\
    statusCode failure = VNum 404%float /\
    message failure = VStr "Product not found".
Proof.
  apply (absent_id_is_not_found Products DELETE (Sample.request_for "999" ∅)
           Sample.mockWorld Sample.mockProducts).
  - vm_compute. reflexivity.
  - repeat constructor.
Defined.

(** C4. When some record has the requested id, update answers with the
    first such record merged with the payload and its [id] set back to what
    it was, so the id still is the requested one whatever the payload says;
    every other field is the payload's where the payload has it and the old
    one elsewhere; and the saved sequence holds that record in the place of
    the old one. *)
Theorem update_preserves_id
    (r : resource) (req : request) (w : world) (records : list record) :
  disk w !! file_of r = Some (Json records) ->
  read_only w = false ->
  Exists (fun x => has_id (sought r req) x = true) records ->
  exists (l1 l2 : list record) (old new : record),
    records = l1 ++ old :: l2 /\
    Forall (fun y => has_id (sought r req) y = false) l1 /\
    has_id (sought r req) old = true /\
    route_id r PATCH req w =
      (res_json (success (data_key r) (VObj new)),
       written (file_of r) (l1 ++ new :: l2) w) /\
    (l1 ++ new :: l2) !! length l1 = Some new /\
    Get new "id" = Get old "id" /\
    has_id (sought r req) new = true /\
    (r = Users -> Get new "id" = VStr (params_id req)) /\
    (forall k : string, k <> "id" ->
       new !! k = match body req !! k with Some v => Some v | None => old !! k end).
Proof.
  intros Hload Hrw Hex.
  destruct (first_match _ _ Hex) as (l1 & old & l2 & -> & Hl1 & Hold).
  exists l1, l2, old, (<["id" := Get old "id"]> (spread old (body req))).
  assert (Hid : Get (<["id" := Get old "id"]> (spread old (body req))) "id" = Get old "id")
    by apply Get_insert_eq.
  repeat split; try assumption.
  - exact (route_patch_first r req w l1 l2 old Hload Hrw Hl1 Hold).
  - apply list_lookup_middle. reflexivity.
  - unfold has_id. rewrite Hid. exact Hold.
  - intros ->. rewrite Hid. apply strict_equal_string. exact Hold.
  - intros k Hk. rewrite lookup_insert_ne by congruence. apply lookup_spread.
Qed.

Lemma update_preserves_id_witness :
  let req := Sample.request_for "2" (<["id" := VStr "other"]> {[ "stock" := VNum 4%float ]}) in
  exists (l1 l2 : list record) (old new : record),
    Sample.mockProducts = l1 ++ old :: l2 /\
    Forall (fun y => has_id (sought Products req) y = false) l1 /\
    has_id (sought Products req) old = true /\
    route_id Products PATCH req Sample.mockWorld =
      (res_json (success (data_key Products) (VObj new)),
       written (file_of Products) (l1 ++ new :: l2) Sample.mockWorld) /\
    (l1 ++ new :: l2) !! length l1 = Some new /\
    Get new "id" = Get old "id" /\
    has_id (sought Products req) new = true /\
    (Products = Users -> Get new "id" = VStr (params_id req)) /\
    (forall k : string, k <> "id" ->
       new !! k = match body req !! k with Some v => Some v | None => old !! k end).
Proof.
  intros req.
  apply (update_preserves_id Products req Sample.mockWorld Sample.mockProducts).
  - vm_compute. reflexivity.
  - reflexivity.
  - apply Exists_cons_tl, Exists_cons_hd. vm_compute. reflexivity.
Defined.

(** C5, as the code has it. When some record has the requested id, delete
    answers with the first such record as it was, and saves the sequence
    without it: one record shorter, the others in their order. A getById of
    the same id on the saved sequence ends with the 404 error provided no
    later record carries that id (the collections do not keep ids unique). *)
Theorem delete_removes_first_match
    (r : resource) (req : request) (w : world) (records : list record) :
  disk w !! file_of r = Some (Json records) ->
  read_only w = false ->
  Exists (fun x => has_id (sought r req) x = true) records ->
  exists (l1 l2 : list record) (removed : record),
    records = l1 ++ removed :: l2 /\
    Forall (fun y => has_id (sought r req) y = false) l1 /\
    has_id (sought r req) removed = true /\
    route_id r DELETE req w =
      (res_json (success (data_key r) (VObj removed)),
       written (file_of r) (l1 ++ l2) w) /\
    S (length (l1 ++ l2)) = length records /\
    (Forall (fun y => has_id (sought r req) y = false) l2 ->
     route_id r GET req (written (file_of r) (l1 ++ l2) w) =
       (Next (not_found (missing r)), written (file_of r) (l1 ++ l2) w)).
Proof.
  intros Hload Hrw Hex.
  destruct (first_match _ _ Hex) as (l1 & x & l2 & -> & Hl1 & Hx).
  exists l1, l2, x. repeat split; try assumption.
  - exact (route_delete_first r req w l1 l2 x Hload Hrw Hl1 Hx).
  - rewrite !length_app. simpl. lia.
  - intros Hl2. apply (route_absent r req _ GET (l1 ++ l2)).
    + apply written_load.
    + apply Forall_app. split; assumption.
Qed.

Lemma delete_removes_first_match_witness :
  let req := Sample.request_for "1" ∅ in
  exists (l1 l2 : list record) (removed : record),
    Sample.mockUsers = l1 ++ removed :: l2 /\
    Forall (fun y => has_id (sought Users req) y = false) l1 /\
    has_id (sought Users req) removed = true /\
    route_id Users DELETE req Sample.mockWorld =
      (res_json (success (data_key Users) (VObj removed)),
       written (file_of Users) (l1 ++ l2) Sample.mockWorld) /\
    S (length (l1 ++ l2)) = length Sample.mockUsers /\
    (Forall (fun y => has_id (sought Users req) y = false) l2 ->
     route_id Users GET req (written (file_of Users) (l1 ++ l2) Sample.mockWorld) =
       (Next (not_found (missing Users)),
        written (file_of Users) (l1 ++ l2) Sample.mockWorld)).
Proof.
  intros req.
  apply (delete_removes_first_match Users req Sample.mockWorld Sample.mockUsers).
  - vm_compute. reflexivity.
  - reflexivity.
  - apply Exists_cons_hd. vm_compute. reflexivity.
Defined.

(** C5 as stated fails: with two users under id "1", the id is present,
    delete removes the first of them, and getById of "1" on the saved
    sequence answers 200 with the second instead of failing. *)
Lemma delete_then_get_counterexample :
  let req := Sample.request_for "1" ∅ in
  let ann := Sample.user "1" "Ann" "ann@example.com" in
  let bob := Sample.user "1" "Bob" "bob@example.com" in
  let saved := written "users.json" [bob] Sample.twinWorld in
  disk Sample.twinWorld !! "users.json" = Some (Json [ann; bob]) /\
  has_id (VStr "1") ann = true /\
  deleteUser req Sample.twinWorld = (res_json (success "user" (VObj ann)), saved) /\
  getUserById req saved = (res_json (success "user" (VObj bob)), saved) /\
  fst (getUserById req saved) <> Next (not_found "User not found").
Proof.
  vm_compute. repeat split; discriminate.
Qed.

(** C10. When the first record with the requested id is followed by any
    records at all, among them further records with that id, update rewrites
    that first record only and delete removes it only: the records before it
    and after it are saved as they were and in their order. *)
Theorem first_match_only
    (r : resource) (req : request) (w : world) (l1 l2 : list record) (x : record) :
  disk w !! file_of r = Some (Json (l1 ++ x :: l2)) ->
  read_only w = false ->
  Forall (fun y => has_id (sought r req) y = false) l1 ->
  has_id (sought r req) x = true ->
  snd (route_id r PATCH req w) =
    written (file_of r) (l1 ++ <["id" := Get x "id"]> (spread x (body req)) :: l2) w /\
  snd (route_id r DELETE req w) = written (file_of r) (l1 ++ l2) w.
Proof.
  intros Hload Hrw Hl1 Hx. split.
  - rewrite (route_patch_first r req w l1 l2 x Hload Hrw Hl1 Hx). reflexivity.
  - rewrite (route_delete_first r req w l1 l2 x Hload Hrw Hl1 Hx). reflexivity.
Qed.

Lemma first_match_only_witness :
  let req := Sample.request_for "7" {[ "stock" := VNum 9%float ]} in
  let lamp := Sample.product 7%float "Lamp" 10%float "home" 1%float in
  let desk := Sample.product 7%float "Desk" 20%float "home" 2%float in
  has_id (sought Products req) desk = true /\
  snd (route_id Products PATCH req Sample.twinWorld) =
    written (file_of Products)
      ([] ++ <["id" := Get lamp "id"]> (spread lamp (body req)) :: [desk])
      Sample.twinWorld /\
  snd (route_id Products DELETE req Sample.twinWorld) =
    written (file_of Products) ([] ++ [desk]) Sample.twinWorld.
Proof.
  intros req lamp desk. split; [vm_compute; reflexivity|].
  apply (first_match_only Products req Sample.twinWorld [] [desk] lamp).
  - vm_compute. reflexivity.
  - reflexivity.
  - constructor.
  - vm_compute. reflexivity.
Defined.

(** ** The order of Numbers, and Math.max *)

Lemma SFcompare_rank (a b : spec_float) :
  SFcompare a b =
    match rank a, rank b with
    | Some x, Some y => Some (lex x y)
    | _, _ => None
    end.
Proof.
  destruct a as [[]|[]| |[] m1 e1], b as [[]|[]| |[] m2 e2]; try reflexivity; simpl.
  rewrite Z.compare_opp, (Z.compare_antisym e1 e2).
  destruct (e1 ?= e2); reflexivity.
Qed.

Lemma lex_refl (a : Z * Z * Z) : lex a a = Eq.
Proof. destruct a as [[a1 a2] a3]. simpl. rewrite !Z.compare_refl. reflexivity. Qed.

Lemma lex_antisym (a b : Z * Z * Z) : lex b a = CompOpp (lex a b).
Proof.
  destruct a as [[a1 a2] a3], b as [[b1 b2] b3]. simpl.
  rewrite (Z.compare_antisym a1 b1), (Z.compare_antisym a2 b2), (Z.compare_antisym a3 b3).
  destruct (a1 ?= b1), (a2 ?= b2), (a3 ?= b3); reflexivity.
Qed.

Lemma lex_trans (a b c : Z * Z * Z) :
  lex a b <> Lt -> lex b c <> Lt -> lex a c <> Lt.
Proof.
  destruct a as [[a1 a2] a3], b as [[b1 b2] b3], c as [[c1 c2] c3]. simpl.
  destruct (Z.compare_spec a1 b1), (Z.compare_spec b1 c1), (Z.compare_spec a1 c1);
    try lia; try congruence;
  destruct (Z.compare_spec a2 b2), (Z.compare_spec b2 c2), (Z.compare_spec a2 c2);
    try lia; try congruence;
  destruct (Z.compare_spec a3 b3), (Z.compare_spec b3 c3), (Z.compare_spec a3 c3);
    try lia; congruence.
Qed.

Lemma rank_not_NaN (x : float) : PrimFloat.is_nan x = false -> exists k, rank (Prim2SF x) = Some k.
Proof.
  intros H. unfold Prim2SF. rewrite H.
  destruct (PrimFloat.is_zero x); [simpl; eauto|].
  destruct (PrimFloat.is_infinity x); [destruct (PrimFloat.get_sign x); simpl; eauto|].
  destruct (Z.frexp x) as [r ex].
  destruct (shr_fexp _ _ _ _ _) as [shr e'].
  destruct (shr_m shr); [simpl; eauto | destruct (PrimFloat.get_sign x); simpl; eauto | simpl; eauto].
Qed.

Lemma Number_ge_rank (x y : float) (kx ky : Z * Z * Z) :
  rank (Prim2SF x) = Some kx -> rank (Prim2SF y) = Some ky ->
  Number_ge x y = true <-> lex kx ky <> Lt.
Proof.
  intros Hx Hy. unfold Number_ge. rewrite FloatAxioms.compare_spec, SFcompare_rank, Hx, Hy.
  simpl. destruct (lex kx ky); split; congruence.
Qed.

Lemma Number_gt_rank (x y : float) (kx ky : Z * Z * Z) :
  rank (Prim2SF x) = Some kx -> rank (Prim2SF y) = Some ky ->
  Number_gt x y = true <-> lex kx ky = Gt.
Proof.
  intros Hx Hy. unfold Number_gt. rewrite FloatAxioms.compare_spec, SFcompare_rank, Hx, Hy.
  simpl. rewrite (lex_antisym kx ky). destruct (lex kx ky); simpl; split; congruence.
Qed.

Lemma is_zero_rank (x : float) :
  PrimFloat.is_zero x = true -> rank (Prim2SF x) = Some (0, 0, 0).
Proof.
  unfold PrimFloat.is_zero. rewrite FloatAxioms.eqb_spec. unfold SFeqb.
  rewrite SFcompare_rank.
  change (rank (Prim2SF PrimFloat.zero)) with (Some (0, 0, 0)).
  destruct (Prim2SF x) as [[]|[]| |[] m e]; simpl; try discriminate; reflexivity.
Qed.

(** Math.max from a Number that is not NaN over Numbers that are not NaN:
    the answer is the start or one of the Numbers, and it is [>=] all of
    them. *)
Lemma Math_max_from_greatest (l : list number) (h : number) :
  PrimFloat.is_nan h = false ->
  Forall (fun x => PrimFloat.is_nan x = false) l ->
  (Math_max_from h l = h \/ In (Math_max_from h l) l) /\
  Number_ge (Math_max_from h l) h = true /\
  Forall (fun x => Number_ge (Math_max_from h l) x = true) l.
Proof.
  intros Hh Hl. revert h Hh.
  induction Hl as [|x l Hx Hl IH]; intros h Hh; simpl.
  - destruct (rank_not_NaN h Hh) as [kh Hkh].
    repeat split; [left; reflexivity | | constructor].
    apply (Number_ge_rank h h kh kh Hkh Hkh). rewrite lex_refl. discriminate.
  - rewrite Hx.
    destruct (rank_not_NaN h Hh) as [kh Hkh].
    destruct (rank_not_NaN x Hx) as [kx Hkx].
    assert (Hup : forall r kr, rank (Prim2SF r) = Some kr ->
              Number_ge r x = true -> lex kx kh <> Lt -> Number_ge r h = true).
    { intros r kr Hkr Hrx Hxh. apply (Number_ge_rank r h kr kh Hkr Hkh).
      apply (lex_trans kr kx kh); [|exact Hxh].
      apply (Number_ge_rank r x kr kx Hkr Hkx). exact Hrx. }
    assert (Hdown : forall r kr, rank (Prim2SF r) = Some kr ->
              Number_ge r h = true -> lex kh kx <> Lt -> Number_ge r x = true).
    { intros r kr Hkr Hrh Hhx. apply (Number_ge_rank r x kr kx Hkr Hkx).
      apply (lex_trans kr kh kx); [|exact Hhx].
      apply (Number_ge_rank r h kr kh Hkr Hkh). exact Hrh. }
    assert (Hnan : forall y, (Math_max_from y l = y \/ In (Math_max_from y l) l) ->
              PrimFloat.is_nan y = false -> PrimFloat.is_nan (Math_max_from y l) = false).
    { intros y [-> | Hin] Hy; [exact Hy|].
      rewrite Forall_forall in Hl. apply Hl. apply list_elem_of_In. exact Hin. }
    destruct (is_pos_zero x && is_neg_zero h) eqn:Hzero;
      [|destruct (Number_gt x h) eqn:Hgt].
    + destruct (IH x Hx) as (Hmem & Hge & Hall).
      destruct (rank_not_NaN _ (Hnan x Hmem Hx)) as [kr Hkr].
      apply andb_true_iff in Hzero as [Hzx Hzh].
      apply andb_true_iff in Hzx as [Hzx _]. apply andb_true_iff in Hzh as [Hzh _].
      rewrite (is_zero_rank x Hzx) in Hkx. rewrite (is_zero_rank h Hzh) in Hkh.
      injection Hkx as <-. injection Hkh as <-.
      repeat split.
      * right. destruct Hmem as [-> | Hin]; [left; reflexivity | right; exact Hin].
      * apply (Hup _ kr Hkr Hge). discriminate.
      * constructor; assumption.
    + destruct (IH x Hx) as (Hmem & Hge & Hall).
      destruct (rank_not_NaN _ (Hnan x Hmem Hx)) as [kr Hkr].
      apply (Number_gt_rank x h kx kh Hkx Hkh) in Hgt.
      repeat split.
      * right. destruct Hmem as [-> | Hin]; [left; reflexivity | right; exact Hin].
      * apply (Hup _ kr Hkr Hge). congruence.
      * constructor; assumption.
    + destruct (IH h Hh) as (Hmem & Hge & Hall).
      destruct (rank_not_NaN _ (Hnan h Hmem Hh)) as [kr Hkr].
      repeat split.
      * destruct Hmem as [-> | Hin]; [left; reflexivity | right; right; exact Hin].
      * exact Hge.
      * constructor; [|exact Hall].
        apply (Hdown _ kr Hkr Hge). intros Hlt.
        assert (lex kx kh = Gt) by (rewrite (lex_antisym kh kx), Hlt; reflexivity).
        apply (Number_gt_rank x h kx kh Hkx Hkh) in H. congruence.
Qed.

Lemma Number_ge_refl (x : number) :
  PrimFloat.is_nan x = false -> Number_ge x x = true.
Proof.
  intros Hx. destruct (rank_not_NaN x Hx) as [k Hk].
  apply (Number_ge_rank x x k k Hk Hk). rewrite lex_refl. discriminate.
Qed.

Lemma Number_ge_neg_infinity (x : number) :
  PrimFloat.is_nan x = false -> Number_ge x PrimFloat.neg_infinity = true.
Proof.
  intros Hx. destruct (rank_not_NaN x Hx) as [k Hk].
  apply (Number_ge_rank x PrimFloat.neg_infinity k (-2, 0, 0) Hk); [reflexivity|].
  destruct (Prim2SF x) as [[]|[]| |[] m e]; simpl in Hk;
    try discriminate Hk; injection Hk as <-; discriminate.
Qed.

(** ToNumber of the arguments, one by one: they are all converted when each
    has a primitive, and the call throws a TypeError otherwise. *)
Lemma coerce_all_defined (args : list value) :
  forallb has_primitive args = true ->
  coerce_all args = inr (map Number_of args).
Proof.
  induction args as [|v args IH]; simpl; [reflexivity|].
  intros [Hv Hargs]%andb_true_iff. unfold ToNumber. rewrite Hv, (IH Hargs).
  reflexivity.
Qed.

Lemma coerce_all_throws (args : list value) :
  forallb has_primitive args = false ->
  coerce_all args = inl TypeError.
Proof.
  induction args as [|v args IH]; simpl; [discriminate|].
  unfold ToNumber. destruct (has_primitive v); simpl; [|reflexivity].
  intros Hargs. rewrite (IH Hargs). reflexivity.
Qed.

(** Math.max of values that all convert to Numbers other than NaN is a
    greatest one of these Numbers. *)
Lemma Math_max_greatest (args : list value) :
  args <> [] ->
  Forall (fun v => PrimFloat.is_nan (Number_of v) = false) args ->
  exists top : number,
    top = Math_max_from PrimFloat.neg_infinity (map Number_of args) /\
    Forall (fun v => Number_ge top (Number_of v) = true) args /\
    Exists (fun v => Number_ge (Number_of v) top = true) args.
Proof.
  intros Hne Hargs. eexists. split; [reflexivity|].
  destruct (Math_max_from_greatest (map Number_of args) PrimFloat.neg_infinity)
    as (Hmem & _ & Hall); [reflexivity | apply Forall_map; exact Hargs |].
  split; [apply Forall_map in Hall; exact Hall|].
  destruct Hmem as [-> | Hin].
  - destruct args as [|v args]; [congruence|].
    apply Exists_cons_hd. apply Number_ge_neg_infinity.
    inversion Hargs; assumption.
  - apply in_map_iff in Hin as (v & Hv & Hin).
    apply List.Exists_exists. exists v. split; [exact Hin|].
    rewrite <- Hv. apply Number_ge_refl.
    rewrite List.Forall_forall in Hargs. apply Hargs. exact Hin.
Qed.

(** ** Printing in base 16 *)

Lemma radix_digit_hex_digit (d : Z) :
  0 <= d < 16 -> radix_digit 16 (hex_digit d) = Some d.
Proof.
  intros Hd.
  assert (Hall : forallb (fun d => match radix_digit 16 (hex_digit d) with
                                   | Some d' => d' =? d
                                   | None => false
                                   end) (seqZ 0 16) = true)
    by (vm_compute; reflexivity).
  rewrite forallb_forall in Hall.
  specialize (Hall d). destruct (radix_digit 16 (hex_digit d)) as [d'|].
  - f_equal. apply Z.eqb_eq. apply Hall. apply list_elem_of_In, elem_of_seqZ. lia.
  - discriminate Hall. apply list_elem_of_In, elem_of_seqZ. lia.
Qed.

Lemma integer_value_snoc (R : Z) (ds : list Z) (d : Z) :
  integer_value R (ds ++ [d]) = integer_value R ds * R + d.
Proof. unfold integer_value. rewrite fold_left_app. reflexivity. Qed.

(** With fuel for every digit, [hex_digits] puts the digits of [n] before
    what is accumulated. *)
Lemma hex_digits_read (fuel : nat) (n : Z) (acc : string) (da : list Z) :
  0 <= n < 16 ^ Z.of_nat fuel ->
  span_digits 16 acc = (da, EmptyString) ->
  exists dn : list Z,
    span_digits 16 (hex_digits fuel n acc) = (dn ++ da, EmptyString) /\
    integer_value 16 dn = n.
Proof.
  revert n acc da. induction fuel as [|fuel IH]; intros n acc da Hn Hacc.
  - exists []. simpl in *. split; [exact Hacc | unfold integer_value; simpl; lia].
  - simpl hex_digits.
    assert (Hstep : span_digits 16 (String (hex_digit (n mod 16)) acc)
                    = (n mod 16 :: da, EmptyString)).
    { simpl. rewrite radix_digit_hex_digit by (apply Z.mod_pos_bound; lia).
      rewrite Hacc. reflexivity. }
    destruct (Z.eqb_spec (n / 16) 0) as [Hq|Hq].
    + exists [n mod 16]. split; [exact Hstep|].
      unfold integer_value. simpl.
      pose proof (Z.div_mod n 16). lia.
    + destruct (IH (n / 16) (String (hex_digit (n mod 16)) acc) (n mod 16 :: da))
        as (dn & Hread & Hval); [|exact Hstep|].
      { rewrite Nat2Z.inj_succ, Z.pow_succ_r in Hn by lia.
        split; [apply Z.div_pos; lia|].
        apply Z.div_lt_upper_bound; lia. }
      exists (dn ++ [n mod 16]). split.
      * rewrite <- app_assoc. exact Hread.
      * rewrite integer_value_snoc, Hval.
        pose proof (Z.div_mod n 16). lia.
Qed.

(** [toString16] prints every digit: read back in base 16, the string is
    the number. *)
Lemma toString16_read (n : N) :
  exists ds : list Z,
    span_digits 16 (toString16 n) = (ds, EmptyString) /\
    integer_value 16 ds = Z.of_N n.
Proof.
  unfold toString16.
  destruct (hex_digits_read (S (Z.to_nat (Z.log2 (Z.of_N n)))) (Z.of_N n)
              EmptyString [])
    as (dn & Hread & Hval); [|reflexivity|].
  - split; [lia|].
    rewrite Nat2Z.inj_succ, Z2Nat.id by apply Z.log2_nonneg.
    destruct n as [|p]; [reflexivity|].
    apply Z.lt_le_trans with (2 ^ Z.succ (Z.log2 (Z.of_N (N.pos p)))).
    + apply Z.log2_spec. lia.
    + apply Z.pow_le_mono_l. lia.
  - exists dn. rewrite app_nil_r in Hread. split; assumption.
Qed.

(** The time in base 16 is never empty, and tells times apart. *)
Lemma hex_digits_nonempty (fuel : nat) (n : Z) (acc : string) :
  acc <> EmptyString -> hex_digits fuel n acc <> EmptyString.
Proof.
  revert n acc. induction fuel as [|fuel IH]; intros n acc Hacc; simpl; [exact Hacc|].
  destruct (n / 16 =? 0); [discriminate|]. apply IH. discriminate.
Qed.

Lemma toString16_nonempty (n : N) : toString16 n <> EmptyString.
Proof.
  unfold toString16. simpl.
  destruct (Z.of_N n / 16 =? 0); [discriminate|].
  apply hex_digits_nonempty. discriminate.
Qed.

Lemma toString16_inj (a b : N) : toString16 a = toString16 b -> a = b.
Proof.
  intros H.
  destruct (toString16_read a) as (da & Ha & Hva).
  destruct (toString16_read b) as (db & Hb & Hvb).
  rewrite H, Hb in Ha. injection Ha as <-. lia.
Qed.

Lemma append_inv_head (a b b' : string) : (a ++ b = a ++ b')%string -> b = b'.
Proof.
  induction a as [|ch a IH]; simpl; intros H; [exact H|].
  injection H as H. exact (IH H).
Qed.

Lemma append_nonempty (a b : string) : b <> EmptyString -> (a ++ b)%string <> EmptyString.
Proof. destruct a; simpl; [auto | discriminate]. Qed.

(** ** Creating records *)

(** The id createProduct computes: 1 on an empty collection without
    [Math.max] being called; otherwise the ids are spread into the call and
    converted, which throws when they are too many or when one of them has
    no primitive. *)
Lemma next_id_empty (w : world) : next_id [] w = (inr 1%float, w).
Proof. reflexivity. Qed.

Lemma next_id_defined (products : list record) (w : world) :
  products <> [] ->
  within_limit w products = true ->
  ids_have_primitives products = true ->
  next_id products w = (inr (greatest_id products + 1)%float, w).
Proof.
  intros Hne Hfit Hprim. unfold next_id.
  destruct products as [|p ps]; [congruence|].
  change (0 <? Z.of_nat (length (p :: ps))) with true. cbv iota.
  unfold mbind, M_bind, bind, call_with_spread, spread_arguments, evaluate, ret.
  unfold within_limit in Hfit. rewrite length_map.
  apply N.leb_le in Hfit. apply N.ltb_ge in Hfit. rewrite Hfit.
  unfold Math_max. unfold ids_have_primitives, ids in Hprim.
  rewrite (coerce_all_defined _ Hprim). reflexivity.
Qed.

Lemma next_id_too_many (products : list record) (w : world) :
  products <> [] ->
  within_limit w products = false ->
  next_id products w = (inl (thrown RangeError), w).
Proof.
  intros Hne Hfit. unfold next_id.
  destruct products as [|p ps]; [congruence|].
  change (0 <? Z.of_nat (length (p :: ps))) with true. cbv iota.
  unfold mbind, M_bind, bind, call_with_spread, spread_arguments, evaluate, ret.
  unfold within_limit in Hfit. rewrite length_map.
  apply N.leb_gt in Hfit. apply N.ltb_lt in Hfit. rewrite Hfit. reflexivity.
Qed.

Lemma next_id_no_primitive (products : list record) (w : world) :
  within_limit w products = true ->
  ids_have_primitives products = false ->
  next_id products w = (inl (thrown TypeError), w).
Proof.
  intros Hfit Hprim. unfold next_id.
  destruct products as [|p ps]; [discriminate Hprim|].
  change (0 <? Z.of_nat (length (p :: ps))) with true. cbv iota.
  unfold mbind, M_bind, bind, call_with_spread, spread_arguments, evaluate, ret.
  unfold within_limit in Hfit. rewrite length_map.
  apply N.leb_le in Hfit. apply N.ltb_ge in Hfit. rewrite Hfit.
  unfold Math_max. unfold ids_have_primitives, ids in Hprim.
  rewrite (coerce_all_throws _ Hprim). reflexivity.
Qed.

(** createProduct once the id is computed, and when computing it throws. *)
Lemma createProduct_ok (req : request) (w : world) (products : list record)
    (id : number) :
  disk w !! "products.json" = Some (Json products) ->
  next_id products w = (inr id, w) ->
  read_only w = false ->
  let created := spread {[ "id" := VNum id ]} (body req) in
  createProduct req w =
    (res_status_json 201%float (success "product" (VObj created)),
     written "products.json" (products ++ [created]) w).
Proof.
  intros Hload Hid Hrw created. unfold createProduct. run_controller Hload.
  rewrite Hid. fold created. rewrite (save_ok _ _ _ Hrw). reflexivity.
Qed.

Lemma createProduct_thrown (req : request) (w : world) (products : list record)
    (x : exception) :
  disk w !! "products.json" = Some (Json products) ->
  next_id products w = (inl (thrown x), w) ->
  createProduct req w = (Next (thrown x), w).
Proof.
  intros Hload Hid. unfold createProduct. run_controller Hload.
  rewrite Hid. reflexivity.
Qed.

Lemma next_id_cases (products : list record) (w : world) :
  (exists id, next_id products w = (inr id, w)) \/
  (exists x, next_id products w = (inl (thrown x), w)).
Proof.
  destruct products as [|p ps]; [left; eexists; apply next_id_empty|].
  destruct (within_limit w (p :: ps)) eqn:Hfit.
  - destruct (ids_have_primitives (p :: ps)) eqn:Hprim.
    + left. eexists. apply next_id_defined; [discriminate | assumption | assumption].
    + right. eexists. apply next_id_no_primitive; assumption.
  - right. eexists. apply next_id_too_many; [discriminate | assumption].
Qed.

(** The cases of [next_id], for a collection whose ids can be passed to
    [Math.max]. *)
Lemma next_id_computed (products : list record) (w : world) :
  can_compute_id w products = true ->
  next_id products w = (inr (computed_id products), w).
Proof.
  unfold can_compute_id, computed_id. destruct products as [|p ps].
  - intros _. apply next_id_empty.
  - intros [Hfit Hprim]%andb_true_iff.
    apply next_id_defined; [discriminate | assumption | assumption].
Qed.

Lemma createUser_ok (c : clock) (req : request) (w : world) (users : list record) :
  disk w !! "users.json" = Some (Json users) ->
  read_only w = false ->
  let created :=
    spread {[ "id" := or_else (Get (body req) "id") (VStr (generateRandomId c)) ]}
      (body req) in
  createUser c req w =
    (res_status_json 201%float (success "user" (VObj created)),
     written "users.json" (users ++ [created]) w).
Proof.
  intros Hload Hrw created. unfold createUser. run_controller Hload.
  fold created. rewrite (save_ok _ _ _ Hrw). reflexivity.
Qed.

(** A body spread over a default id: the body's id when it has one. *)
Lemma spread_id_lookup (dflt : value) (payload : record) (k : string) :
  spread {[ "id" := dflt ]} payload !! k =
    if decide (k = "id")
    then Some (default dflt (payload !! "id"))
    else payload !! k.
Proof.
  rewrite lookup_spread. case_decide as Hk.
  - subst k. rewrite lookup_singleton_eq. destruct (payload !! "id"); reflexivity.
  - rewrite lookup_singleton_ne by congruence. destruct (payload !! k); reflexivity.
Qed.

Lemma spread_id_insert (dflt : value) (payload : record) :
  spread {[ "id" := dflt ]} payload =
    <["id" := default dflt (payload !! "id")]> payload.
Proof.
  apply map_eq. intros k. rewrite spread_id_lookup. case_decide as Hk.
  - subst k. rewrite lookup_insert_eq. reflexivity.
  - rewrite lookup_insert_ne by congruence. reflexivity.
Qed.

(** C1, as the code has it. The computed id is 1 on an empty collection;
    on any other it is [Math.max(...ids) + 1], which can be computed when
    the ids fit the arguments of one call and each has a primitive, and is
    then one more than a greatest id (when no id converts to NaN).
    createProduct then answers 201 with the new record and saves the
    collection with that record appended. The record is the payload with an
    [id]: the payload's own [id] when it has one, and otherwise the computed
    one. Every other field is the payload's. When the ids are too many the
    call throws a RangeError, and when they fit but one has no primitive a
    TypeError: the handler passes it to [next] and nothing is saved. *)
Theorem createProduct_id (req : request) (w : world) (products : list record) :
  disk w !! "products.json" = Some (Json products) ->
  (can_compute_id w products = true ->
   read_only w = false ->
   exists created : record,
     createProduct req w =
       (res_status_json 201%float (success "product" (VObj created)),
        written "products.json" (products ++ [created]) w) /\
     Get created "id" =
       match body req !! "id" with
       | Some v => v
       | None => VNum (computed_id products)
       end /\
     (forall k : string, k <> "id" -> created !! k = body req !! k)) /\
  (products = [] -> computed_id products = 1%float) /\
  (products <> [] ->
   exists top : number,
     computed_id products = (top + 1)%float /\
     (ids_have_primitives products = true ->
      Math_max (ids products) = inr top) /\
     (Forall (fun p => PrimFloat.is_nan (Number_of (Get p "id")) = false) products ->
      Forall (fun p => Number_ge top (Number_of (Get p "id")) = true) products /\
      Exists (fun p => Number_ge (Number_of (Get p "id")) top = true) products)) /\
  (products <> [] ->
   within_limit w products = false ->
   createProduct req w = (Next (thrown RangeError), w)) /\
  (within_limit w products = true ->
   ids_have_primitives products = false ->
   createProduct req w = (Next (thrown TypeError), w)).
Proof.
  intros Hload. split; [|split; [|split; [|split]]].
  - intros Hcan Hrw.
    exists (spread {[ "id" := VNum (computed_id products) ]} (body req)).
    split; [|split].
    + exact (createProduct_ok req w products _ Hload (next_id_computed _ _ Hcan) Hrw).
    + unfold Get. rewrite spread_id_lookup. rewrite decide_True by reflexivity.
      destruct (body req !! "id"); reflexivity.
    + intros k Hk. rewrite spread_id_lookup. rewrite decide_False by exact Hk.
      reflexivity.
  - intros ->. reflexivity.
  - intros Hne. exists (greatest_id products). split; [|split].
    + unfold computed_id. destruct products; [congruence | reflexivity].
    + intros Hprim. unfold Math_max, greatest_id.
      rewrite (coerce_all_defined _ Hprim). reflexivity.
    + intros Hnum.
      destruct (Math_max_greatest (ids products)) as (top & -> & Hall & Hex).
      * destruct products; [congruence | discriminate].
      * apply Forall_map. exact Hnum.
      * split; [apply Forall_map in Hall; exact Hall|].
        apply List.Exists_exists in Hex as (v & Hin & Hv).
        apply in_map_iff in Hin as (p & <- & Hp).
        apply List.Exists_exists. exists p. split; assumption.
  - intros Hne Hfit.
    exact (createProduct_thrown req w products _ Hload (next_id_too_many _ _ Hne Hfit)).
  - intros Hfit Hprim.
    exact (createProduct_thrown req w products _ Hload
             (next_id_no_primitive _ _ Hfit Hprim)).
Qed.

Lemma createProduct_id_witness :
  let req := Sample.request_for "" {[ "name" := VStr "A" ]} in
  let w := Sample.mockWorld in
  let products := Sample.mockProducts in
  disk w !! "products.json" = Some (Json products) /\
  can_compute_id w products = true /\
  computed_id products = 4%float /\
  ((can_compute_id w products = true ->
    read_only w = false ->
    exists created : record,
      createProduct req w =
        (res_status_json 201%float (success "product" (VObj created)),
         written "products.json" (products ++ [created]) w) /\
      Get created "id" =
        match body req !! "id" with
        | Some v => v
        | None => VNum (computed_id products)
        end /\
      (forall k : string, k <> "id" -> created !! k = body req !! k)) /\
   (products = [] -> computed_id products = 1%float) /\
   (products <> [] ->
    exists top : number,
      computed_id products = (top + 1)%float /\
      (ids_have_primitives products = true ->
       Math_max (ids products) = inr top) /\
      (Forall (fun p => PrimFloat.is_nan (Number_of (Get p "id")) = false) products ->
       Forall (fun p => Number_ge top (Number_of (Get p "id")) = true) products /\
       Exists (fun p => Number_ge (Number_of (Get p "id")) top = true) products)) /\
   (products <> [] ->
    within_limit w products = false ->
    createProduct req w = (Next (thrown RangeError), w)) /\
   (within_limit w products = true ->
    ids_have_primitives products = false ->
    createProduct req w = (Next (thrown TypeError), w))).
Proof.
  intros req w products.
  split; [vm_compute; reflexivity|].
  split; [reflexivity|].
  split; [reflexivity|].
  apply (createProduct_id req w products). vm_compute. reflexivity.
Defined.

(** C1 as stated fails: on an empty collection the generated id is 1, yet a
    payload that brings [id: 42] is answered, and saved, with id 42. *)
Lemma createProduct_payload_id_counterexample :
  let req := Sample.request_for "" (<["id" := VNum 42%float]> {[ "name" := VStr "A" ]}) in
  let w := Sample.world_of [] [] in
  let created : record := <["id" := VNum 42%float]> {[ "name" := VStr "A" ]} in
  createProduct req w =
    (res_status_json 201%float (success "product" (VObj created)),
     written "products.json" [created] w) /\
  next_id [] w = (inr 1%float, w) /\
  Get created "id" = VNum 42%float /\
  Get created "id" <> VNum 1%float.
Proof.
  vm_compute. split; [reflexivity|]. split; [reflexivity|]. split; [reflexivity|].
  intros H. discriminate H.
Qed.

(** An id without a primitive, and more ids than a call takes: the create
    is answered 500 and the collection stays as it was. *)
Example createProduct_id_without_primitive :
  let odd : record := {[ "id" := VObj {[ "toString" := VNum 1%float ]} ]} in
  let w := Sample.world_of [] [odd] in
  let req := Sample.request_for "" {[ "name" := VStr "A" ]} in
  createProduct req w = (Next (thrown TypeError), w) /\
  status (fst (app None {| random_toString16 := "0.8f3a"; Date_now := 0 |}
                 (Collection Products POST) req w)) = VNum 500%float.
Proof. vm_compute. split; reflexivity. Qed.

Example createProduct_too_many_ids :
  let w := {| disk := {[ "products.json" := Json Sample.mockProducts ]};
              read_only := false;
              argument_limit := 2 |} in
  let req := Sample.request_for "" {[ "name" := VStr "A" ]} in
  createProduct req w = (Next (thrown RangeError), w).
Proof. vm_compute. reflexivity. Qed.

(** The scenario of the specification: on an empty collection a first
    create yields id 1 and a second one id 2. *)
Example createProduct_twice :
  let req := Sample.request_for "" (<["name" := VStr "X"]> {[ "price" := VNum 10%float ]}) in
  let first : record := <["id" := VNum 1%float]> (body req) in
  let second : record := <["id" := VNum 2%float]> (body req) in
  let w1 := written "products.json" [first] (Sample.world_of [] []) in
  createProduct req (Sample.world_of [] []) =
    (res_status_json 201%float (success "product" (VObj first)), w1) /\
  createProduct req w1 =
    (res_status_json 201%float (success "product" (VObj second)),
     written "products.json" [first; second] w1).
Proof. vm_compute. split; reflexivity. Qed.

(** C2. createUser answers 201 with the new record and saves the collection
    with that record appended. The record's [id] is the payload's [id] when
    the payload has one and the generated identifier otherwise; the record
    is the payload with that id set, so every other field is the payload's.
    The generated identifier is what [Math.random().toString(16)] leaves
    after its first two characters, followed by [Date.now()] in base 16: it
    is never empty, its end reads back as the time, and so two identifiers
    with the same random part differ whenever their times do. *)
Theorem createUser_id (c : clock) (req : request) (w : world) (users : list record) :
  disk w !! "users.json" = Some (Json users) ->
  read_only w = false ->
  exists created : record,
    createUser c req w =
      (res_status_json 201%float (success "user" (VObj created)),
       written "users.json" (users ++ [created]) w) /\
    Get created "id" =
      match body req !! "id" with
      | Some v => v
      | None => VStr (generateRandomId c)
      end /\
    created = <["id" := Get created "id"]> (body req) /\
    (forall k : string, k <> "id" -> created !! k = body req !! k) /\
    generateRandomId c =
      (substring_from 2 (random_toString16 c) ++ toString16 (Date_now c))%string /\
    generateRandomId c <> EmptyString /\
    (exists digits : list Z,
       span_digits 16 (toString16 (Date_now c)) = (digits, EmptyString) /\
       integer_value 16 digits = Z.of_N (Date_now c)) /\
    (forall c' : clock,
       random_toString16 c' = random_toString16 c ->
       generateRandomId c' = generateRandomId c ->
       Date_now c' = Date_now c).
Proof.
  intros Hload Hrw.
  set (dflt := or_else (Get (body req) "id") (VStr (generateRandomId c))).
  exists (spread {[ "id" := dflt ]} (body req)).
  assert (Hid : Get (spread {[ "id" := dflt ]} (body req)) "id" =
                match body req !! "id" with
                | Some v => v
                | None => VStr (generateRandomId c)
                end).
  { unfold Get at 1. rewrite spread_id_lookup, decide_True by reflexivity.
    unfold dflt, Get. destruct (body req !! "id"); reflexivity. }
  split; [exact (createUser_ok c req w users Hload Hrw)|].
  split; [exact Hid|]. split; [|split; [|split; [|split; [|split]]]].
  - rewrite spread_id_insert. unfold Get. rewrite lookup_insert_eq. reflexivity.
  - intros k Hk. rewrite spread_id_lookup, decide_False by exact Hk. reflexivity.
  - reflexivity.
  - apply append_nonempty, toString16_nonempty.
  - apply toString16_read.
  - unfold generateRandomId. intros c' -> Hsame.
    apply toString16_inj. exact (append_inv_head _ _ _ Hsame).
Qed.

Lemma createUser_id_witness :
  let c := {| random_toString16 := "0.8f3a"; Date_now := 1730000000000%N |} in
  let req := Sample.request_for "" {[ "name" := VStr "New User" ]} in
  exists created : record,
    createUser c req Sample.mockWorld =
      (res_status_json 201%float (success "user" (VObj created)),
       written "users.json" (Sample.mockUsers ++ [created]) Sample.mockWorld) /\
    Get created "id" =
      match body req !! "id" with
      | Some v => v
      | None => VStr (generateRandomId c)
      end /\
    created = <["id" := Get created "id"]> (body req) /\
    (forall k : string, k <> "id" -> created !! k = body req !! k) /\
    generateRandomId c =
      (substring_from 2 (random_toString16 c) ++ toString16 (Date_now c))%string /\
    generateRandomId c <> EmptyString /\
    (exists digits : list Z,
       span_digits 16 (toString16 (Date_now c)) = (digits, EmptyString) /\
       integer_value 16 digits = Z.of_N (Date_now c)) /\
    (forall c' : clock,
       random_toString16 c' = random_toString16 c ->
       generateRandomId c' = generateRandomId c ->
       Date_now c' = Date_now c).
Proof.
  intros c req.
  apply (createUser_id c req Sample.mockWorld Sample.mockUsers).
  - vm_compute. reflexivity.
  - reflexivity.
Defined.

(** The generated identifier of the sample clock. *)
Example generateRandomId_sample :
  generateRandomId {| random_toString16 := "0.8f3a"; Date_now := 1730000000000%N |}
    = "8f3a192cc091400".
Proof. vm_compute. reflexivity. Qed.

(** A payload id that is there but falsy is kept too: the generated id is
    computed, and the spread body then overwrites it. *)
Example createUser_empty_id :
  let c := {| random_toString16 := "0.8f3a"; Date_now := 1730000000000%N |} in
  let payload : record := <["id" := VStr ""]> {[ "name" := VStr "New User" ]} in
  fst (createUser c (Sample.request_for "" payload) Sample.mockWorld) =
    res_status_json 201%float (success "user" (VObj payload)).
Proof. vm_compute. reflexivity. Qed.

(** Two creations with one id leave two records under that id: the
    collections of [Sample.twinWorld] arise from the empty ones through
    createUser and createProduct. *)
Example twins_by_creation :
  let c := {| random_toString16 := "0.8f3a"; Date_now := 1730000000000%N |} in
  let w0 := Sample.world_of [] [] in
  let ann := Sample.user "1" "Ann" "ann@example.com" in
  let bob := Sample.user "1" "Bob" "bob@example.com" in
  let lamp := Sample.product 7%float "Lamp" 10%float "home" 1%float in
  let desk := Sample.product 7%float "Desk" 20%float "home" 2%float in
  let w1 := snd (createUser c (Sample.request_for "" ann) w0) in
  let w2 := snd (createUser c (Sample.request_for "" bob) w1) in
  let w3 := snd (createProduct (Sample.request_for "" lamp) w2) in
  let w4 := snd (createProduct (Sample.request_for "" desk) w3) in
  w4 = Sample.twinWorld.
Proof. vm_compute. reflexivity. Qed.

(** ** Listing products *)

Lemma filter_filter {A} (f g : A -> bool) (l : list A) :
  List.filter g (List.filter f l) = List.filter (fun x => f x && g x) l.
Proof.
  induction l as [|x l IH]; simpl; [reflexivity|].
  destruct (f x); simpl; [destruct (g x)|]; rewrite IH; reflexivity.
Qed.

Lemma filter_true {A} (l : list A) : List.filter (fun _ => true) l = l.
Proof. induction l as [|x l IH]; simpl; [|rewrite IH]; reflexivity. Qed.

(** The three optional filters, applied one after the other, keep what one
    filter by their conjunction keeps. *)
Lemma filters_in_turn {A} (c1 c2 c3 : bool) (f1 f2 f3 : A -> bool) (l : list A) :
  (let l1 := if c1 then List.filter f1 l else l in
   let l2 := if c2 then List.filter f2 l1 else l1 in
   if c3 then List.filter f3 l2 else l2) =
  List.filter
    (fun x => (if c1 then f1 x else true) && (if c2 then f2 x else true) &&
              (if c3 then f3 x else true)) l.
Proof.
  cbv zeta. rewrite <- !filter_filter.
  destruct c1, c2, c3; rewrite ?filter_true; reflexivity.
Qed.

Lemma filter_if {A} (c : bool) (f : A -> bool) (l : list A) :
  (if c then List.filter f l else l) = List.filter (fun x => if c then f x else true) l.
Proof. destruct c; [reflexivity | symmetry; apply filter_true]. Qed.

(** A filter whose callback may throw a TypeError and nothing else: it
    throws when the callback does on some element, and filters otherwise. *)
Lemma filter_throwing_TypeError {A} (f : A -> throws bool) (l : list A) :
  (forall x e, f x = inl e -> e = TypeError) ->
  filter_throwing f l =
    if forallb (fun x => defined (f x)) l
    then inr (List.filter (fun x => passes (f x)) l)
    else inl TypeError.
Proof.
  intros Hf. induction l as [|x l IH]; simpl; [reflexivity|].
  destruct (f x) as [e|keep] eqn:Hx; simpl.
  - rewrite (Hf x e Hx). reflexivity.
  - rewrite IH. destruct (forallb (fun x => defined (f x)) l); reflexivity.
Qed.

Lemma parseFloat_query_TypeError (q : option qvalue) (e : exception) :
  parseFloat_query q = inl e -> e = TypeError.
Proof.
  unfold parseFloat_query. destruct q as [q|]; [|discriminate].
  destruct (qhas_primitive q); [discriminate | congruence].
Qed.

Lemma ToNumber_TypeError (v : value) (e : exception) :
  ToNumber v = inl e -> e = TypeError.
Proof. unfold ToNumber. destruct (has_primitive v); [discriminate | congruence]. Qed.

Lemma at_least_TypeError (q : option qvalue) (p : record) (e : exception) :
  at_least q p = inl e -> e = TypeError.
Proof.
  unfold at_least, ge_Number.
  destruct (parseFloat_query q) eqn:Hq; [intros [= <-]; exact (parseFloat_query_TypeError _ _ Hq)|].
  destruct (ToNumber (Get p "price")) eqn:Hp; [|discriminate].
  intros [= <-]. exact (ToNumber_TypeError _ _ Hp).
Qed.

Lemma at_most_TypeError (q : option qvalue) (p : record) (e : exception) :
  at_most q p = inl e -> e = TypeError.
Proof.
  unfold at_most, le_Number.
  destruct (parseFloat_query q) eqn:Hq; [intros [= <-]; exact (parseFloat_query_TypeError _ _ Hq)|].
  destruct (ToNumber (Get p "price")) eqn:Hp; [|discriminate].
  intros [= <-]. exact (ToNumber_TypeError _ _ Hp).
Qed.

(** Some record makes a price test throw exactly when the minPrice filter
    throws on what the category filter kept, or the maxPrice filter on what
    the minPrice filter kept. *)
Lemma throws_in_turn {A} (c2 c3 : bool) (C D2 P2 D3 : A -> bool) (l : list A) :
  existsb (fun x => C x && ((c2 && negb (D2 x)) ||
                            ((if c2 then P2 x else true) && c3 && negb (D3 x)))) l =
  (c2 && negb (forallb D2 (List.filter C l))) ||
  (c3 && negb (forallb D3 (List.filter (fun x => if c2 then P2 x else true)
                             (List.filter C l)))).
Proof.
  induction l as [|x l IH]; simpl.
  - destruct c2, c3; reflexivity.
  - rewrite IH. destruct (C x); simpl; [|reflexivity].
    destruct c2, c3; simpl;
      destruct (D2 x) eqn:E2, (P2 x) eqn:EP, (D3 x) eqn:E3; simpl;
      rewrite ?E2, ?EP, ?E3; simpl;
      repeat match goal with
             | |- context [forallb ?f ?l] => destruct (forallb f l)
             end; reflexivity.
Qed.

(** getAllProducts on a collection that loads: a TypeError when a price
    test throws, the filtered collection otherwise. *)
Lemma getAllProducts_run (req : request) (w : world) (products : list record) :
  disk w !! "products.json" = Some (Json products) ->
  getAllProducts req w =
    if existsb (price_test_throws req) products
    then (Next (thrown TypeError), w)
    else (res_json (success_list "products" (List.filter (satisfies_all req) products)), w).
Proof.
  intros Hload. unfold getAllProducts. run_controller Hload. cbv zeta.
  unfold price_test_throws, satisfies_all, supplied, satisfies_minPrice,
    satisfies_maxPrice.
  rewrite (throws_in_turn
             (qToBoolean (query req !! "minPrice"))
             (qToBoolean (query req !! "maxPrice"))
             (fun p => if qToBoolean (query req !! "category")
                       then satisfies_category req p else true)
             (fun p => defined (at_least (query req !! "minPrice") p))
             (fun p => passes (at_least (query req !! "minPrice") p))
             (fun p => defined (at_most (query req !! "maxPrice") p))).
  rewrite <- (filters_in_turn
                (qToBoolean (query req !! "category"))
                (qToBoolean (query req !! "minPrice"))
                (qToBoolean (query req !! "maxPrice"))
                (satisfies_category req)
                (fun p => passes (at_least (query req !! "minPrice") p))
                (fun p => passes (at_most (query req !! "maxPrice") p))).
  cbv zeta. rewrite <- !filter_if. fold (satisfies_category req).
  set (l1 := if qToBoolean (query req !! "category")
             then List.filter (satisfies_category req) products else products).
  destruct (qToBoolean (query req !! "minPrice")); simpl.
  - unfold evaluate at 1.
    rewrite (filter_throwing_TypeError _ l1 (at_least_TypeError _)).
    destruct (forallb _ l1); simpl; [|reflexivity].
    destruct (qToBoolean (query req !! "maxPrice")); simpl; [|reflexivity].
    unfold evaluate.
    rewrite (filter_throwing_TypeError _ _ (at_most_TypeError _)).
    destruct (forallb _ _); reflexivity.
  - destruct (qToBoolean (query req !! "maxPrice")); simpl; [|reflexivity].
    unfold evaluate.
    rewrite (filter_throwing_TypeError _ _ (at_most_TypeError _)).
    destruct (forallb _ _); reflexivity.
Qed.

Lemma getAllProducts_ok (req : request) (w : world) (products : list record) :
  disk w !! "products.json" = Some (Json products) ->
  existsb (price_test_throws req) products = false ->
  getAllProducts req w =
    (res_json (success_list "products" (List.filter (satisfies_all req) products)), w).
Proof.
  intros Hload Hdefined. rewrite (getAllProducts_run req w products Hload), Hdefined.
  reflexivity.
Qed.

(** No price test throws when the price of every record and the supplied
    bounds have primitives. *)
Lemma price_tests_defined (req : request) (products : list record) :
  Forall (fun p => has_primitive (Get p "price") = true) products ->
  bound_has_primitive req "minPrice" = true ->
  bound_has_primitive req "maxPrice" = true ->
  existsb (price_test_throws req) products = false.
Proof.
  intros Hprices Hmin Hmax. apply not_true_is_false.
  intros (p & Hp & Hthrows)%existsb_exists.
  rewrite List.Forall_forall in Hprices. specialize (Hprices p Hp).
  assert (Hlo : defined (at_least (query req !! "minPrice") p) = true).
  { unfold at_least, parseFloat_query, ge_Number, ToNumber.
    unfold bound_has_primitive in Hmin. rewrite Hprices.
    destruct (query req !! "minPrice") as [q|]; [rewrite Hmin|]; reflexivity. }
  assert (Hhi : defined (at_most (query req !! "maxPrice") p) = true).
  { unfold at_most, parseFloat_query, le_Number, ToNumber.
    unfold bound_has_primitive in Hmax. rewrite Hprices.
    destruct (query req !! "maxPrice") as [q|]; [rewrite Hmax|]; reflexivity. }
  unfold price_test_throws in Hthrows. rewrite Hlo, Hhi in Hthrows.
  simpl in Hthrows. rewrite !andb_false_r in Hthrows. discriminate Hthrows.
Qed.

(** C6. When no price test throws (as when every price and both bounds
    have primitives), getAllProducts answers with the records that pass
    every supplied filter, in the order of the collection: a record is
    listed exactly when it is in the collection and passes the category test
    if a category is supplied, the minPrice test if a minPrice is supplied
    and the maxPrice test if a maxPrice is supplied. When a price test
    throws on a record that the filters before it kept, there is no list:
    the TypeError goes to [next]. *)
Theorem filters_are_conjunctive (req : request) (w : world) (products : list record) :
  disk w !! "products.json" = Some (Json products) ->
  (existsb (price_test_throws req) products = false ->
   exists result : list record,
     getAllProducts req w = (res_json (success_list "products" result), w) /\
     result = List.filter (satisfies_all req) products /\
     (forall p : record,
        In p result <->
        In p products /\
        (supplied req "category" = true -> satisfies_category req p = true) /\
        (supplied req "minPrice" = true -> satisfies_minPrice req p = true) /\
        (supplied req "maxPrice" = true -> satisfies_maxPrice req p = true))) /\
  (existsb (price_test_throws req) products = true ->
   getAllProducts req w = (Next (thrown TypeError), w)) /\
  (Forall (fun p => has_primitive (Get p "price") = true) products ->
   bound_has_primitive req "minPrice" = true ->
   bound_has_primitive req "maxPrice" = true ->
   existsb (price_test_throws req) products = false).
Proof.
  intros Hload. split; [|split].
  - intros Hdefined. exists (List.filter (satisfies_all req) products).
    split; [exact (getAllProducts_ok req w products Hload Hdefined)|].
    split; [reflexivity|].
    intros p. rewrite filter_In. unfold satisfies_all.
    destruct (supplied req "category"), (supplied req "minPrice"),
      (supplied req "maxPrice");
      rewrite ?andb_true_iff; intuition congruence.
  - intros Hthrows. rewrite (getAllProducts_run req w products Hload), Hthrows.
    reflexivity.
  - apply price_tests_defined.
Qed.

(** The example of the specification: of the three products priced 99.99,
    199.99 and 29.99, the first two in electronics and the third in
    accessories, [category=electronics&minPrice=150] lists the second only. *)
Lemma filters_are_conjunctive_witness :
  let req :=
    Sample.request_query (<["category" := QStr "electronics"]> {[ "minPrice" := QStr "150" ]}) in
  getAllProducts req Sample.mockWorld =
    (res_json (success_list "products"
                 [Sample.product 2%float "Product 2" 199.99%float "electronics" 5%float]),
     Sample.mockWorld).
Proof.
  intros req.
  destruct (filters_are_conjunctive req Sample.mockWorld Sample.mockProducts)
    as (Hlisted & _).
  - vm_compute. reflexivity.
  - destruct Hlisted as (result & Hrun & Hresult & _).
    + vm_compute. reflexivity.
    + rewrite Hrun, Hresult. vm_compute. reflexivity.
Defined.

(** A price without a primitive: the listing with a price bound is answered
    500, and the listing by category alone is not affected. *)
Example getAllProducts_price_without_primitive :
  let odd : record :=
    <["category" := VStr "home"]> {[ "price" := VObj {[ "toString" := VNum 1%float ]} ]} in
  let w := Sample.world_of [] [odd] in
  getAllProducts (Sample.request_query {[ "minPrice" := QStr "5" ]}) w =
    (Next (thrown TypeError), w) /\
  getAllProducts (Sample.request_query {[ "category" := QStr "home" ]}) w =
    (res_json (success_list "products" [odd]), w) /\
  getAllProducts
    (Sample.request_query (<["category" := QStr "garden"]> {[ "minPrice" := QStr "5" ]})) w =
    (res_json (success_list "products" []), w).
Proof. vm_compute. repeat split; reflexivity. Qed.

(** C9. A query parameter bound to the empty string is as good as absent:
    for each of category, minPrice and maxPrice, the answer with the
    parameter set to "" is the answer with the parameter removed. *)
Theorem empty_query_parameter_is_absent (req : request) (w : world) :
  let asking q := {| params_id := params_id req; query := q; body := body req |} in
  getAllProducts (asking (<["category" := QStr ""]> (query req))) w =
    getAllProducts (asking (delete "category" (query req))) w /\
  getAllProducts (asking (<["minPrice" := QStr ""]> (query req))) w =
    getAllProducts (asking (delete "minPrice" (query req))) w /\
  getAllProducts (asking (<["maxPrice" := QStr ""]> (query req))) w =
    getAllProducts (asking (delete "maxPrice" (query req))) w.
Proof.
  intros asking. unfold getAllProducts, asking. simpl query.
  repeat split;
    rewrite ?lookup_insert_eq, ?lookup_delete_eq;
    rewrite ?lookup_insert_ne, ?lookup_delete_ne by discriminate;
    reflexivity.
Qed.

(** ** The error handler *)

(** Every HTTP status code is a truthy Number. *)
Lemma http_status_truthy (z : Z) :
  100 <= z <= 599 -> Number_truthy (Number_of_Z z) = true.
Proof.
  intros Hz.
  assert (Hall : forallb (fun z => Number_truthy (Number_of_Z z)) (seqZ 100 500) = true)
    by (vm_compute; reflexivity).
  rewrite forallb_forall in Hall. apply Hall.
  apply list_elem_of_In, elem_of_seqZ. lia.
Qed.

(** C7. The error handler answers with one envelope: [status] "error",
    [statusCode] and [message], and [stack] besides exactly when NODE_ENV
    is "development". The statusCode, which is also the status of the
    response, is the error's own when that is truthy, as every HTTP status
    code is, and 500 when the error has none. *)
Theorem errorHandler_envelope (NODE_ENV : option string) (err : error) :
  let res := errorHandler NODE_ENV err in
  exists (N text : value) (envelope : record),
    json res = VObj envelope /\
    status res = N /\
    N = (if ToBoolean (statusCode err) then statusCode err else VNum 500%float) /\
    text = (if ToBoolean (message err) then message err
            else VStr "Internal server error") /\
    envelope =
      (let base : record :=
         <["message" := text]>
           (<["statusCode" := N]> {[ "status" := VStr "error" ]}) in
       if bool_decide (NODE_ENV = Some "development")
       then <["stack" := stack err]> base
       else base) /\
    (statusCode err = VUndefined -> N = VNum 500%float) /\
    (forall z : Z, 100 <= z <= 599 ->
       statusCode err = VNum (Number_of_Z z) -> N = VNum (Number_of_Z z)) /\
    (is_Some (envelope !! "stack") <-> NODE_ENV = Some "development").
Proof.
  intros res.
  exists (or_else (statusCode err) (VNum 500%float)),
    (or_else (message err) (VStr "Internal server error")).
  eexists. split; [reflexivity|]. split; [reflexivity|].
  split; [reflexivity|]. split; [reflexivity|]. split; [|split; [|split]].
  - cbv zeta. unfold spread. case_bool_decide.
    + symmetry. apply insert_union_singleton_l.
    + apply (left_id_L ∅ (∪)).
  - intros ->. reflexivity.
  - intros z Hz ->. unfold or_else. simpl. rewrite (http_status_truthy z Hz).
    reflexivity.
  - unfold json, res, errorHandler. cbv zeta. rewrite lookup_spread.
    case_bool_decide as Hdev.
    + rewrite lookup_singleton_eq. split; [intros _; exact Hdev | eauto].
    + rewrite lookup_empty.
      rewrite !lookup_insert_ne, lookup_singleton_ne by discriminate.
      split; [intros [v Hv]; discriminate Hv | intros H; contradiction].
Qed.

(** The 404 error of a controller, as the error handler renders it outside
    development. *)
Example not_found_rendered :
  errorHandler (Some "production") (not_found "User not found") =
    {| status := VNum 404%float;
       json :=
         VObj (<["status" := VStr "error"]>
                 (<["statusCode" := VNum 404%float]>
                    {[ "message" := VStr "User not found" ]})) |}.
Proof. vm_compute. reflexivity. Qed.

(** ** Product ids in the path *)

(** A path parameter without a numeric prefix parses to NaN. *)
Lemma parseInt_no_numeric_prefix (s : string) :
  has_numeric_prefix s = false -> parseInt s = PrimFloat.nan.
Proof.
  unfold has_numeric_prefix, parseInt.
  destruct (split_sign (trim_start s)) as [negative unsigned]. simpl snd.
  destruct unsigned as [|c rest]; [reflexivity|].
  destruct c as [[] [] [] [] [] [] [] []]; intros H;
    solve [ discriminate H | reflexivity ].
Qed.

(** The three product operations read the path parameter through parseInt
    only. *)
Lemma route_products_parsed (m : method) (req req' : request) (w : world) :
  parseInt (params_id req') = parseInt (params_id req) ->
  body req' = body req ->
  route_id Products m req' w = route_id Products m req w.
Proof.
  intros Hid Hbody.
  destruct m; simpl;
    unfold getProductById, updateProduct, deleteProduct;
    rewrite Hid, ?Hbody; reflexivity.
Qed.

(** C8. getById, update and delete of products work on parseInt of the
    path parameter: two requests whose parameters parse to the same Number
    (and whose bodies agree) get the same answer, so "2abc", which parses
    to 2, is served as "2" is. The operations reach the first record whose
    id is strictly equal to the parsed Number: getById answers with it,
    update answers with it merged with the payload and saves that in its
    place, and delete answers with it and saves the collection without it;
    through "2abc" that is the first record with id 2. A parameter without
    a numeric prefix parses to NaN, which no record's id equals, so the
    operation ends with the 404 error and leaves the data directory as it
    was. *)
Theorem product_id_is_parsed
    (m : method) (req : request) (w : world) (products : list record) :
  disk w !! "products.json" = Some (Json products) ->
  (forall req' : request,
     parseInt (params_id req') = parseInt (params_id req) ->
     body req' = body req ->
     route_id Products m req' w = route_id Products m req w) /\
  parseInt "2abc" = 2%float /\
  (params_id req = "2abc" ->
   sought Products req = VNum 2%float /\
   route_id Products m req w =
     route_id Products m
       {| params_id := "2"; query := query req; body := body req |} w) /\
  (forall (l1 l2 : list record) (found : record),
     products = l1 ++ found :: l2 ->
     Forall (fun p => has_id (VNum (parseInt (params_id req))) p = false) l1 ->
     has_id (VNum (parseInt (params_id req))) found = true ->
     operates_on req w l1 found l2) /\
  (forall (l1 l2 : list record) (found : record),
     params_id req = "2abc" ->
     products = l1 ++ found :: l2 ->
     Forall (fun p => has_id (VNum 2%float) p = false) l1 ->
     Get found "id" = VNum 2%float ->
     operates_on req w l1 found l2) /\
  (has_numeric_prefix (params_id req) = false ->
   parseInt (params_id req) = PrimFloat.nan /\
   Forall (fun p => has_id (sought Products req) p = false) products /\
   exists failure : error,
     route_id Products m req w = (Next failure, w) /\
     statusCode failure = VNum 404%float /\
     message failure = VStr "Product not found").
Proof.
  intros Hload.
  assert (Hreach : forall (l1 l2 : list record) (found : record),
            products = l1 ++ found :: l2 ->
            Forall (fun p => has_id (VNum (parseInt (params_id req))) p = false) l1 ->
            has_id (VNum (parseInt (params_id req))) found = true ->
            operates_on req w l1 found l2).
  { intros l1 l2 found -> Hl1 Hfound. split; [|intros Hrw; split].
    - exact (getProductById_first req w l1 l2 found Hload Hl1 Hfound).
    - exact (updateProduct_first req w l1 l2 found Hload Hrw Hl1 Hfound).
    - exact (deleteProduct_first req w l1 l2 found Hload Hrw Hl1 Hfound). }
  split; [|split; [|split; [|split; [|split]]]].
  - intros req'. apply route_products_parsed.
  - vm_compute. reflexivity.
  - intros Hid. split.
    + simpl. rewrite Hid. vm_compute. reflexivity.
    + symmetry. apply route_products_parsed; [|reflexivity].
      simpl. rewrite Hid. vm_compute. reflexivity.
  - exact Hreach.
  - intros l1 l2 found Hid Hsplit Hl1 Hfound.
    assert (Hparse : parseInt (params_id req) = 2%float)
      by (rewrite Hid; vm_compute; reflexivity).
    apply Hreach; [exact Hsplit | rewrite Hparse; exact Hl1 |].
    rewrite Hparse. unfold has_id. rewrite Hfound. reflexivity.
  - intros Hprefix.
    pose proof (parseInt_no_numeric_prefix _ Hprefix) as Hnan.
    assert (Habs : Forall (fun p => has_id (sought Products req) p = false) products).
    { apply Forall_forall. intros p _. unfold has_id, sought.
      rewrite Hnan. apply strict_equal_NaN. }
    split; [exact Hnan|]. split; [exact Habs|].
    exists (not_found (missing Products)).
    split; [exact (route_absent Products req w m products Hload Habs)|].
    split; reflexivity.
Qed.

(** Through "2abc" the three operations reach the second of the sample
    products, the one with id 2. *)
Lemma product_id_is_parsed_witness :
  let req := Sample.request_for "2abc" {[ "stock" := VNum 1%float ]} in
  let first := Sample.product 1%float "Product 1" 99.99%float "electronics" 10%float in
  let second := Sample.product 2%float "Product 2" 199.99%float "electronics" 5%float in
  let third := Sample.product 3%float "Product 3" 29.99%float "accessories" 20%float in
  disk Sample.mockWorld !! "products.json" = Some (Json [first; second; third]) /\
  operates_on req Sample.mockWorld [first] second [third].
Proof.
  intros req first second third.
  split; [vm_compute; reflexivity|].
  destruct (product_id_is_parsed GET req Sample.mockWorld Sample.mockProducts)
    as (_ & _ & _ & _ & Hreach & _).
  - vm_compute. reflexivity.
  - apply (Hreach [first] [third] second).
    + reflexivity.
    + reflexivity.
    + repeat constructor.
    + reflexivity.
Defined.

(** "abc" has no numeric prefix: the update ends with the 404 error. *)
Example updateProduct_abc :
  let req := Sample.request_for "abc" {[ "stock" := VNum 1%float ]} in
  has_numeric_prefix (params_id req) = false /\
  parseInt (params_id req) = PrimFloat.nan /\
  updateProduct req Sample.mockWorld =
    (Next (not_found "Product not found"), Sample.mockWorld).
Proof. vm_compute. repeat split; reflexivity. Qed.

(** "2abc" reaches the product with id 2. *)
Example getProductById_2abc :
  getProductById (Sample.request_for "2abc" ∅) Sample.mockWorld =
    (res_json (success "product"
                 (VObj (Sample.product 2%float "Product 2" 199.99%float "electronics" 5%float))),
     Sample.mockWorld).
Proof. vm_compute. reflexivity. Qed.

(** * Further properties *)

(** ** How every handler ends *)

Lemma success_status (key : string) (v : value) :
  success key v !! "status" = Some (VStr "success").
Proof. reflexivity. Qed.

Lemma success_list_status (key : string) (items : list record) :
  success_list key items !! "status" = Some (VStr "success").
Proof. reflexivity. Qed.

Lemma save_fails (filename : string) (data : list record) (w : world) :
  read_only w = true ->
  saveJsonData filename data w =
    (inl (new_Error ("Could not save data to " ++ filename)), w).
Proof. intros H. unfold saveJsonData. rewrite H. reflexivity. Qed.

Lemma load_fails (filename : string) (w : world) :
  (forall data, disk w !! filename <> Some (Json data)) ->
  loadJsonData filename w =
    (inl (new_Error ("Could not load data from " ++ filename)), w).
Proof.
  intros H. unfold loadJsonData.
  destruct (disk w !! filename) as [[data|]|] eqn:Hd; [|reflexivity..].
  destruct (H data). reflexivity.
Qed.

(** Takes a handler apart along its branches: the file loads or not, the
    record is found or not, the directory can be written or not. *)
Ltac handler_cases w :=
  unfold try_next, mbind, M_bind, bind, ret, loadJsonData;
  let Hdisk := fresh "Hdisk" in
  destruct (disk w !! _) as [[?data|]|] eqn:Hdisk; cbn beta iota zeta;
  [ | apply handled_load_error; simpl; intros ?; rewrite Hdisk; discriminate
    | apply handled_load_error; simpl; intros ?; rewrite Hdisk; discriminate ].

Ltac save_cases w :=
  let Hrw := fresh "Hrw" in
  destruct (read_only w) eqn:Hrw;
  [ rewrite (save_fails _ _ _ Hrw); apply handled_save_error; exact Hrw
  | rewrite (save_ok _ _ _ Hrw) ].

Lemma item_handled (r : resource) (m : method) (req : request) (w : world) :
  handled r w (route_id r m req w).
Proof.
  destruct r, m; simpl;
    unfold getUserById, updateUser, deleteUser,
      getProductById, updateProduct, deleteProduct;
    handler_cases w.
  all: try (destruct (List.find _ _); unfold res_json;
            [ apply handled_read; [left; reflexivity | apply success_status]
            | apply handled_not_found ]).
  all: destruct (findIndex _ _ =? -1); [apply handled_not_found|];
    cbn beta iota zeta; unfold splice1; cbn beta iota zeta;
    save_cases w; unfold res_json;
    match goal with
    | |- handled ?r _ _ =>
        apply (handled_written r w 200%float _ _ (or_introl eq_refl))
    end;
      [apply success_status | assumption].
Qed.

Lemma root_handled (c : clock) (r : resource) (m : root_method)
    (req : request) (w : world) :
  handled r w (route_root c r m req w).
Proof.
  destruct r, m; simpl.
  - unfold getAllUsers. handler_cases w.
    unfold res_json. apply handled_read; [left; reflexivity | apply success_list_status].
  - unfold createUser. handler_cases w.
    save_cases w. unfold res_status_json.
    apply (handled_written Users w 201%float _ _ (or_intror eq_refl));
      [apply success_status | assumption].
  - destruct (disk w !! "products.json") as [[products|]|] eqn:Hdisk.
    + rewrite (getAllProducts_run req w products Hdisk).
      destruct (existsb _ _); [apply handled_thrown; reflexivity|].
      unfold res_json. apply handled_read; [left; reflexivity | apply success_list_status].
    + unfold getAllProducts, try_next, mbind, M_bind, bind, loadJsonData.
      rewrite Hdisk. apply handled_load_error. simpl. intros ?. rewrite Hdisk.
      discriminate.
    + unfold getAllProducts, try_next, mbind, M_bind, bind, loadJsonData.
      rewrite Hdisk. apply handled_load_error. simpl. intros ?. rewrite Hdisk.
      discriminate.
  - unfold createProduct. handler_cases w.
    destruct (next_id_cases data w) as [[id ->] | [x ->]];
      [|apply handled_thrown; reflexivity].
    save_cases w. unfold res_status_json.
    apply (handled_written Products w 201%float _ _ (or_intror eq_refl));
      [apply success_status | assumption].
Qed.

Lemma handle_handled (c : clock) (e : endpoint) (r : resource)
    (req : request) (w : world) :
  resource_of e = Some r -> handled r w (handle c e req w).
Proof.
  destruct e as [|err| | |r' m|r' m|url]; simpl; intros [= <-];
    [apply root_handled | apply item_handled].
Qed.




(** X1. The four handlers that read (list and getById of users and of
    products) hand back the data directory exactly as they got it, in every
    world: also when the file does not load or the id is not there. *)
Theorem reads_never_write (req : request) (w : world) :
  snd (getAllUsers req w) = w /\
  snd (getUserById req w) = w /\
  snd (getAllProducts req w) = w /\
  snd (getProductById req w) = w.
Proof.
  unfold getAllUsers, getUserById, getAllProducts, getProductById,
    try_next, mbind, M_bind, bind, ret, loadJsonData.
  repeat split;
    destruct (disk w !! _) as [[data|]|]; simpl; try reflexivity;
    try (destruct (List.find _ data); reflexivity).
  unfold evaluate.
  destruct (qToBoolean (query req !! "minPrice"));
    [destruct (filter_throwing _ _); [reflexivity|] |];
    (destruct (qToBoolean (query req !! "maxPrice"));
     [destruct (filter_throwing _ _); reflexivity | reflexivity]).
Qed.

(** X2. When the file of a resource is missing or does not parse, each of
    the ten handlers of that resource ends with [next] of the loader's own
    error, "Could not load data from <file>", which carries no statusCode;
    the data directory is left as it was, and the application answers 500. *)
Theorem load_failure_propagates
    (NODE_ENV : option string) (c : clock) (e : endpoint) (r : resource)
    (req : request) (w : world) :
  resource_of e = Some r ->
  (forall data, disk w !! file_of r <> Some (Json data)) ->
  handle c e req w = (Next (load_error r), w) /\
  message (load_error r) = VStr ("Could not load data from " ++ file_of r) /\
  statusCode (load_error r) = VUndefined /\
  status (fst (app NODE_ENV c e req w)) = VNum 500%float /\
  snd (app NODE_ENV c e req w) = w.
Proof.
  intros He Hload.
  assert (Hrun : handle c e req w = (Next (load_error r), w)).
  { destruct e as [|err| | |r' m|r' m|url]; simpl in He; try discriminate;
      injection He as ->; destruct r, m; simpl in Hload |- *;
      unfold getAllUsers, createUser, getUserById, updateUser, deleteUser,
        getAllProducts, createProduct, getProductById, updateProduct, deleteProduct,
        try_next, mbind, M_bind, bind;
      rewrite (load_fails _ w Hload); reflexivity. }
  split; [exact Hrun|]. split; [reflexivity|]. split; [reflexivity|].
  unfold app. rewrite Hrun. split; reflexivity.
Qed.

Lemma load_failure_propagates_witness :
  let w := {| disk := {[ "users.json" := Unparseable ]}; read_only := false;
              argument_limit := 100000 |} in
  let e := Item Products DELETE in
  let c := {| random_toString16 := "0.8f3a"; Date_now := 1730000000000%N |} in
  let req := Sample.request_for "1" ∅ in
  handle c e req w = (Next (load_error Products), w) /\
  message (load_error Products) = VStr ("Could not load data from " ++ file_of Products) /\
  statusCode (load_error Products) = VUndefined /\
  status (fst (app None c e req w)) = VNum 500%float /\
  snd (app None c e req w) = w.
Proof.
  intros w e c req.
  apply (load_failure_propagates None c e Products req w).
  - reflexivity.
  - intros data. vm_compute. discriminate.
Defined.

(** X3. When the data directory cannot be written, create (of a product:
    when its id can be computed), and update and delete of an id that is
    there, end with [next] of the saver's own error, "Could not save data to
    <file>"; nothing of the attempted change reaches the directory, and the
    application answers 500. *)
Theorem save_failure_keeps_world
    (NODE_ENV : option string) (c : clock) (e : endpoint) (r : resource)
    (req : request) (w : world) (records : list record) :
  resource_of e = Some r ->
  reads_only e = false ->
  disk w !! file_of r = Some (Json records) ->
  read_only w = true ->
  (forall m, e = Item r m ->
     Exists (fun x => has_id (sought r req) x = true) records) ->
  (e = Collection Products POST -> can_compute_id w records = true) ->
  handle c e req w = (Next (save_error r), w) /\
  message (save_error r) = VStr ("Could not save data to " ++ file_of r) /\
  status (fst (app NODE_ENV c e req w)) = VNum 500%float /\
  snd (app NODE_ENV c e req w) = w.
Proof.
  intros He Hmut Hload Hro Hpresent Hid.
  assert (Hrun : handle c e req w = (Next (save_error r), w)).
  { destruct e as [|err| | |r' m|r' m|url]; simpl in He; try discriminate;
      injection He as ->.
    - destruct m; [discriminate Hmut|].
      destruct r; simpl in Hload |- *; unfold createUser, createProduct;
        run_controller Hload; cbv zeta;
        rewrite ?(next_id_computed _ _ (Hid eq_refl));
        rewrite (save_fails _ _ _ Hro); reflexivity.
    - destruct (first_match _ _ (Hpresent m eq_refl)) as (l1 & x & l2 & -> & Hl1 & Hx).
      unfold has_id in Hl1, Hx.
      destruct m; [discriminate Hmut| |];
        destruct r; simpl in Hload, Hl1, Hx |- *;
        unfold updateUser, updateProduct, deleteUser, deleteProduct;
        run_controller Hload; cbv zeta;
        rewrite (findIndex_first _ _ _ _ Hl1 Hx), index_not_minus_one, Nat2Z.id;
        rewrite ?item_middle, ?insert_middle, ?splice1_middle;
        rewrite (save_fails _ _ _ Hro); reflexivity. }
  split; [exact Hrun|]. split; [reflexivity|].
  unfold app. rewrite Hrun. split; reflexivity.
Qed.

Lemma save_failure_keeps_world_witness :
  let w := {| disk := disk Sample.mockWorld; read_only := true;
              argument_limit := 100000 |} in
  let e := Item Users PATCH in
  let c := {| random_toString16 := "0.8f3a"; Date_now := 1730000000000%N |} in
  let req := Sample.request_for "2" {[ "name" := VStr "Renamed" ]} in
  handle c e req w = (Next (save_error Users), w) /\
  message (save_error Users) = VStr ("Could not save data to " ++ file_of Users) /\
  status (fst (app (Some "production") c e req w)) = VNum 500%float /\
  snd (app (Some "production") c e req w) = w.
Proof.
  intros w e c req.
  apply (save_failure_keeps_world (Some "production") c e Users req w Sample.mockUsers).
  - reflexivity.
  - reflexivity.
  - vm_compute. reflexivity.
  - reflexivity.
  - intros m _. apply Exists_cons_tl, Exists_cons_hd. vm_compute. reflexivity.
  - discriminate.
Defined.

(** X4. When some record has the requested id, getById answers 200 with the
    first record of the collection whose id is strictly equal to it. *)
Theorem getById_first_match
    (r : resource) (req : request) (w : world) (records : list record) :
  disk w !! file_of r = Some (Json records) ->
  Exists (fun x => has_id (sought r req) x = true) records ->
  exists (l1 l2 : list record) (found : record),
    records = l1 ++ found :: l2 /\
    Forall (fun y => has_id (sought r req) y = false) l1 /\
    has_id (sought r req) found = true /\
    route_id r GET req w = (res_json (success (data_key r) (VObj found)), w).
Proof.
  intros Hload Hex.
  destruct (first_match _ _ Hex) as (l1 & x & l2 & -> & Hl1 & Hx).
  exists l1, l2, x. repeat split; try assumption.
  exact (route_get_first r req w l1 l2 x Hload Hl1 Hx).
Qed.

Lemma getById_first_match_witness :
  let req := Sample.request_for "7" ∅ in
  exists (l1 l2 : list record) (found : record),
    Sample.twinProducts = l1 ++ found :: l2 /\
    Forall (fun y => has_id (sought Products req) y = false) l1 /\
    has_id (sought Products req) found = true /\
    route_id Products GET req Sample.twinWorld =
      (res_json (success (data_key Products) (VObj found)), Sample.twinWorld).
Proof.
  intros req.
  apply (getById_first_match Products req Sample.twinWorld Sample.twinProducts).
  - vm_compute. reflexivity.
  - apply Exists_cons_hd. vm_compute. reflexivity.
Defined.

(** ** Round trips and compositions *)

Lemma written_written (f : string) (d1 d2 : list record) (w : world) :
  written f d2 (written f d1 w) = written f d2 w.
Proof. unfold written. simpl. rewrite insert_insert_eq. reflexivity. Qed.

Lemma written_same (f : string) (d : list record) (w : world) :
  disk w !! f = Some (Json d) -> written f d w = w.
Proof.
  intros H. unfold written. rewrite (insert_id _ _ _ H). destruct w; reflexivity.
Qed.

(** A record whose id is strictly equal to a string or a Number has an
    [id] property. *)
Lemma has_id_lookup (X : value) (x : record) :
  X <> VUndefined -> has_id X x = true -> x !! "id" = Some (Get x "id").
Proof.
  unfold has_id, Get. destruct (x !! "id") as [v|]; [reflexivity|].
  simpl. destruct X; try discriminate. congruence.
Qed.

Lemma sought_defined (r : resource) (req : request) : sought r req <> VUndefined.
Proof. destruct r; discriminate. Qed.

(** Merging the same payload a second time changes nothing. *)
Lemma merge_again (old payload : record) :
  let new := <["id" := Get old "id"]> (spread old payload) in
  <["id" := Get new "id"]> (spread new payload) = new.
Proof.
  intros new. assert (Hid : Get new "id" = Get old "id") by apply Get_insert_eq.
  rewrite Hid. apply map_eq. intros k. destruct (decide (k = "id")) as [->|Hk].
  - unfold new. rewrite !lookup_insert_eq. reflexivity.
  - rewrite lookup_insert_ne by congruence. rewrite lookup_spread.
    unfold new. rewrite lookup_insert_ne by congruence. rewrite lookup_spread.
    destruct (payload !! k); reflexivity.
Qed.

(** X5. After a successful update, getById of the same id answers with the
    updated record ("read your writes"), for users and for products. *)
Theorem update_then_get
    (r : resource) (req : request) (w : world) (records : list record) :
  disk w !! file_of r = Some (Json records) ->
  read_only w = false ->
  Exists (fun x => has_id (sought r req) x = true) records ->
  exists updated : record,
    fst (route_id r PATCH req w) = res_json (success (data_key r) (VObj updated)) /\
    route_id r GET req (snd (route_id r PATCH req w)) =
      (res_json (success (data_key r) (VObj updated)), snd (route_id r PATCH req w)).
Proof.
  intros Hload Hrw Hex.
  destruct (first_match _ _ Hex) as (l1 & x & l2 & -> & Hl1 & Hx).
  rewrite (route_patch_first r req w l1 l2 x Hload Hrw Hl1 Hx). simpl.
  eexists. split; [reflexivity|].
  apply (route_get_first r req _ l1 l2); [apply written_load | exact Hl1 |].
  unfold has_id. rewrite Get_insert_eq. exact Hx.
Qed.

Lemma update_then_get_witness :
  let req := Sample.request_for "1" {[ "name" := VStr "Updated User" ]} in
  exists updated : record,
    fst (route_id Users PATCH req Sample.mockWorld) =
      res_json (success (data_key Users) (VObj updated)) /\
    route_id Users GET req (snd (route_id Users PATCH req Sample.mockWorld)) =
      (res_json (success (data_key Users) (VObj updated)),
       snd (route_id Users PATCH req Sample.mockWorld)).
Proof.
  intros req.
  apply (update_then_get Users req Sample.mockWorld Sample.mockUsers).
  - vm_compute. reflexivity.
  - reflexivity.
  - apply Exists_cons_hd. vm_compute. reflexivity.
Defined.

(** X6. Update is idempotent: sending the same update a second time gives
    the same answer and leaves the data directory as the first one left
    it. *)
Theorem update_idempotent
    (r : resource) (req : request) (w : world) (records : list record) :
  disk w !! file_of r = Some (Json records) ->
  read_only w = false ->
  Exists (fun x => has_id (sought r req) x = true) records ->
  route_id r PATCH req (snd (route_id r PATCH req w)) = route_id r PATCH req w.
Proof.
  intros Hload Hrw Hex.
  destruct (first_match _ _ Hex) as (l1 & x & l2 & -> & Hl1 & Hx).
  rewrite (route_patch_first r req w l1 l2 x Hload Hrw Hl1 Hx). simpl.
  rewrite (route_patch_first r req _ l1 l2 (<["id" := Get x "id"]> (spread x (body req)))).
  - rewrite (merge_again x (body req)), written_written. reflexivity.
  - apply written_load.
  - exact Hrw.
  - exact Hl1.
  - unfold has_id. rewrite Get_insert_eq. exact Hx.
Qed.

Lemma update_idempotent_witness :
  let req := Sample.request_for "3" (<["id" := VStr "x"]> {[ "price" := VNum 19.5%float ]}) in
  route_id Products PATCH req (snd (route_id Products PATCH req Sample.mockWorld)) =
    route_id Products PATCH req Sample.mockWorld.
Proof.
  intros req.
  apply (update_idempotent Products req Sample.mockWorld Sample.mockProducts).
  - vm_compute. reflexivity.
  - reflexivity.
  - apply Exists_cons_tl, Exists_cons_tl, Exists_cons_hd. vm_compute. reflexivity.
Defined.

(** X7. An update with an empty payload answers with the record as it is
    and leaves the data directory exactly as it was. *)
Theorem update_with_empty_body
    (r : resource) (req : request) (w : world) (records : list record) :
  disk w !! file_of r = Some (Json records) ->
  read_only w = false ->
  body req = ∅ ->
  Exists (fun x => has_id (sought r req) x = true) records ->
  exists (l1 l2 : list record) (old : record),
    records = l1 ++ old :: l2 /\
    Forall (fun y => has_id (sought r req) y = false) l1 /\
    has_id (sought r req) old = true /\
    route_id r PATCH req w = (res_json (success (data_key r) (VObj old)), w).
Proof.
  intros Hload Hrw Hbody Hex.
  destruct (first_match _ _ Hex) as (l1 & x & l2 & -> & Hl1 & Hx).
  exists l1, l2, x. repeat split; try assumption.
  rewrite (route_patch_first r req w l1 l2 x Hload Hrw Hl1 Hx).
  assert (Hsame : <["id" := Get x "id"]> (spread x (body req)) = x).
  { rewrite Hbody. unfold spread. rewrite (left_id_L ∅ (∪)).
    apply insert_id. exact (has_id_lookup _ x (sought_defined r req) Hx). }
  rewrite Hsame, (written_same _ _ _ Hload). reflexivity.
Qed.

Lemma update_with_empty_body_witness :
  let req := Sample.request_for "2" ∅ in
  exists (l1 l2 : list record) (old : record),
    Sample.mockUsers = l1 ++ old :: l2 /\
    Forall (fun y => has_id (sought Users req) y = false) l1 /\
    has_id (sought Users req) old = true /\
    route_id Users PATCH req Sample.mockWorld =
      (res_json (success (data_key Users) (VObj old)), Sample.mockWorld).
Proof.
  intros req.
  apply (update_with_empty_body Users req Sample.mockWorld Sample.mockUsers).
  - vm_compute. reflexivity.
  - reflexivity.
  - reflexivity.
  - apply Exists_cons_tl, Exists_cons_hd. vm_compute. reflexivity.
Defined.

(** X8. Update never changes which ids the collection holds: whatever the
    payload, and whether the id is found or not and the save succeeds or
    not, the file afterwards holds as many records as before, with the same
    ids in the same places. *)
Theorem update_keeps_ids
    (r : resource) (req : request) (w : world) (records : list record) :
  disk w !! file_of r = Some (Json records) ->
  exists saved : list record,
    disk (snd (route_id r PATCH req w)) !! file_of r = Some (Json saved) /\
    ids saved = ids records /\
    length saved = length records.
Proof.
  intros Hload.
  destruct (decide (Exists (fun x => has_id (sought r req) x = true) records))
    as [Hex|Hnone].
  - destruct (first_match _ _ Hex) as (l1 & x & l2 & -> & Hl1 & Hx).
    destruct (read_only w) eqn:Hrw.
    + exists (l1 ++ x :: l2).
      assert (Hkeep : snd (route_id r PATCH req w) = w).
      { pose proof (item_handled r PATCH req w) as Hh.
        inversion Hh as [code p Hc Hp Heq|code p data Hc Hp Hw Heq| | | |];
          try reflexivity. congruence. }
      rewrite Hkeep. auto.
    + rewrite (route_patch_first r req w l1 l2 x Hload Hrw Hl1 Hx). simpl.
      eexists. split; [apply lookup_insert_eq|].
      unfold ids. rewrite !map_app, !length_app. simpl.
      rewrite Get_insert_eq. auto.
  - exists records.
    rewrite (route_absent r req w PATCH records Hload); [auto|].
    apply Forall_Exists_neg in Hnone.
    eapply Forall_impl; [exact Hnone|]. intros x Hx.
    apply not_true_iff_false. exact Hx.
Qed.

Lemma update_keeps_ids_witness :
  let req := Sample.request_for "1" (<["id" := VStr "changed"]> {[ "name" := VStr "N" ]}) in
  exists saved : list record,
    disk (snd (route_id Users PATCH req Sample.mockWorld)) !! file_of Users
      = Some (Json saved) /\
    ids saved = ids Sample.mockUsers /\
    length saved = length Sample.mockUsers.
Proof.
  intros req.
  apply (update_keeps_ids Users req Sample.mockWorld Sample.mockUsers).
  vm_compute. reflexivity.
Defined.

(** X9. Creating a user under an id no user has yet, whether the payload
    brings the id or it is the generated one, can be read back and undone:
    getById of that id answers with the created record, and delete of that
    id answers with it too and puts the data directory back exactly as it
    was before the create. *)
Theorem createUser_get_delete
    (c : clock) (req : request) (w : world) (users : list record) (s : string) :
  disk w !! "users.json" = Some (Json users) ->
  read_only w = false ->
  body req !! "id" = Some (VStr s) \/
    (body req !! "id" = None /\ generateRandomId c = s) ->
  Forall (fun u => has_id (VStr s) u = false) users ->
  let created : record := <["id" := VStr s]> (body req) in
  let w' := written "users.json" (users ++ [created]) w in
  createUser c req w = (res_status_json 201%float (success "user" (VObj created)), w') /\
  getUserById (with_id s req) w' = (res_json (success "user" (VObj created)), w') /\
  deleteUser (with_id s req) w' = (res_json (success "user" (VObj created)), w).
Proof.
  intros Hload Hrw Hid Hfresh created w'.
  assert (Hcreated :
    spread {[ "id" := or_else (Get (body req) "id") (VStr (generateRandomId c)) ]}
      (body req) = created).
  { rewrite spread_id_insert. unfold created, Get.
    destruct Hid as [-> | [-> <-]]; reflexivity. }
  assert (Hhas : has_id (VStr s) created = true).
  { unfold has_id, created. rewrite Get_insert_eq. simpl. apply String.eqb_refl. }
  split; [|split].
  - rewrite (createUser_ok c req w users Hload Hrw). cbv zeta.
    rewrite Hcreated. reflexivity.
  - apply (getUserById_first (with_id s req) w' users []);
      [apply written_load | exact Hfresh | exact Hhas].
  - rewrite (deleteUser_first (with_id s req) w' users [] created);
      [|apply written_load | exact Hrw | exact Hfresh | exact Hhas].
    unfold w'. rewrite app_nil_r, written_written, (written_same _ _ _ Hload).
    reflexivity.
Qed.

Lemma createUser_get_delete_witness :
  let c := {| random_toString16 := "0.8f3a"; Date_now := 1730000000000%N |} in
  let req := Sample.request_for "" {[ "name" := VStr "New User" ]} in
  let s := generateRandomId c in
  let created : record := <["id" := VStr s]> (body req) in
  let w' := written "users.json" (Sample.mockUsers ++ [created]) Sample.mockWorld in
  createUser c req Sample.mockWorld =
    (res_status_json 201%float (success "user" (VObj created)), w') /\
  getUserById (with_id s req) w' = (res_json (success "user" (VObj created)), w') /\
  deleteUser (with_id s req) w' =
    (res_json (success "user" (VObj created)), Sample.mockWorld).
Proof.
  intros c req s.
  apply (createUser_get_delete c req Sample.mockWorld Sample.mockUsers s).
  - vm_compute. reflexivity.
  - reflexivity.
  - right. split; reflexivity.
  - repeat constructor.
Defined.



Lemma no_filter (req : request) (l : list record) :
  (forall name, supplied req name = false) ->
  List.filter (satisfies_all req) l = l.
Proof.
  intros Hnone. rewrite <- (filter_true l) at 2.
  apply List.filter_ext. intros p. unfold satisfies_all.
  rewrite !Hnone. reflexivity.
Qed.

Lemma no_filter_no_throw (req : request) (l : list record) :
  (forall name, supplied req name = false) ->
  existsb (price_test_throws req) l = false.
Proof.
  intros Hnone. induction l as [|p l IH]; simpl; [reflexivity|].
  rewrite IH. unfold price_test_throws. rewrite !Hnone. reflexivity.
Qed.

(** X11. After a successful create (of a product: when its id can be
    computed), the list operation (with no filter supplied, for products)
    answers with the records that were there, in their order, followed by
    the created one. *)
Theorem create_then_list
    (c : clock) (r : resource) (req req' : request) (w : world)
    (records : list record) :
  disk w !! file_of r = Some (Json records) ->
  read_only w = false ->
  (forall name, supplied req' name = false) ->
  (r = Products -> can_compute_id w records = true) ->
  exists created : record,
    fst (route_root c r POST req w) =
      res_status_json 201%float (success (data_key r) (VObj created)) /\
    route_root c r GET_all req' (snd (route_root c r POST req w)) =
      (res_json
         (success_list (match r with Users => "users" | Products => "products" end)
            (records ++ [created])),
       snd (route_root c r POST req w)).
Proof.
  intros Hload Hrw Hnone Hcan. destruct r; simpl in Hload |- *.
  - rewrite (createUser_ok c req w records Hload Hrw). cbv zeta. simpl.
    eexists. split; [reflexivity|].
    unfold getAllUsers, try_next, mbind, M_bind, bind, ret.
    erewrite load_ok by apply written_load. reflexivity.
  - rewrite (createProduct_ok req w records _ Hload
               (next_id_computed _ _ (Hcan eq_refl)) Hrw).
    cbv zeta. simpl.
    eexists. split; [reflexivity|].
    rewrite (getAllProducts_ok req' _ _ (written_load "products.json" _ w)
               (no_filter_no_throw req' _ Hnone)).
    rewrite (no_filter req' _ Hnone). reflexivity.
Qed.

Lemma create_then_list_witness :
  let c := {| random_toString16 := "0.8f3a"; Date_now := 1730000000000%N |} in
  let req := Sample.request_for "" {[ "name" := VStr "New Product" ]} in
  let req' := Sample.request_query ∅ in
  exists created : record,
    fst (route_root c Products POST req Sample.mockWorld) =
      res_status_json 201%float (success (data_key Products) (VObj created)) /\
    route_root c Products GET_all req' (snd (route_root c Products POST req Sample.mockWorld)) =
      (res_json (success_list "products" (Sample.mockProducts ++ [created])),
       snd (route_root c Products POST req Sample.mockWorld)).
Proof.
  intros c req req'.
  apply (create_then_list c Products req req' Sample.mockWorld Sample.mockProducts).
  - vm_compute. reflexivity.
  - reflexivity.
  - intros name. reflexivity.
  - intros _. reflexivity.
Defined.

(** ** The application as a whole *)

Lemma app_world (NODE_ENV : option string) (c : clock) (e : endpoint)
    (req : request) (w : world) :
  snd (app NODE_ENV c e req w) = snd (handle c e req w).
Proof. unfold app. destruct (handle c e req w) as [[res|err] w']; reflexivity. Qed.

(** X12. A request on one resource never touches the file of the other
    one, nor any other file, and never changes whether the directory can be
    written. *)
Theorem other_files_untouched
    (NODE_ENV : option string) (c : clock) (e : endpoint) (req : request)
    (w : world) (f : string) :
  (forall r, resource_of e = Some r -> f <> file_of r) ->
  disk (snd (app NODE_ENV c e req w)) !! f = disk w !! f /\
  read_only (snd (app NODE_ENV c e req w)) = read_only w.
Proof.
  intros Hother. rewrite app_world.
  destruct (resource_of e) as [r|] eqn:He.
  - pose proof (handle_handled c e r req w He) as Hh.
    inversion Hh as [code p Hc Hp Heq|code p data Hc Hp Hw Heq| | | |];
      simpl; try (split; reflexivity).
    split; [|reflexivity].
    apply lookup_insert_ne. intros Hf. exact (Hother r eq_refl (eq_sym Hf)).
  - destruct e; try discriminate He; split; reflexivity.
Qed.

Lemma other_files_untouched_witness :
  let c := {| random_toString16 := "0.8f3a"; Date_now := 1730000000000%N |} in
  let req := Sample.request_for "1" ∅ in
  disk (snd (app None c (Item Users DELETE) req Sample.mockWorld)) !! "products.json"
    = disk Sample.mockWorld !! "products.json" /\
  read_only (snd (app None c (Item Users DELETE) req Sample.mockWorld))
    = read_only Sample.mockWorld.
Proof.
  intros c req.
  apply (other_files_untouched None c (Item Users DELETE) req Sample.mockWorld
           "products.json").
  intros r [= <-]. discriminate.
Defined.

(** X13. A request that no route takes is answered 404 with the error
    envelope whose message names the requested URL; the data directory is
    left as it was. *)
Theorem unmatched_route_is_404
    (NODE_ENV : option string) (c : clock) (url : string) (req : request) (w : world) :
  let res := fst (app NODE_ENV c (Unmatched url) req w) in
  status res = VNum 404%float /\
  snd (app NODE_ENV c (Unmatched url) req w) = w /\
  exists payload : record,
    json res = VObj payload /\
    payload !! "status" = Some (VStr "error") /\
    payload !! "statusCode" = Some (VNum 404%float) /\
    payload !! "message" = Some (VStr ("Could not find " ++ url ++ " on this server!")) /\
    (is_Some (payload !! "stack") <-> NODE_ENV = Some "development").
Proof.
  intros res. split; [reflexivity|]. split; [reflexivity|].
  eexists. split; [reflexivity|]. rewrite !lookup_spread.
  assert (Hside : forall k : string, k <> "stack" ->
            (if bool_decide (NODE_ENV = Some "development")
             then ({[ "stack" :=
                        stack (set_statusCode 404%float
                                 (new_Error ("Could not find " ++ url ++ " on this server!"))) ]}
                   : record)
             else ∅) !! k = None).
  { intros k Hk. case_bool_decide; [apply lookup_singleton_ne; congruence | apply lookup_empty]. }
  rewrite !Hside by discriminate.
  split; [reflexivity|]. split; [reflexivity|]. split; [reflexivity|].
  case_bool_decide as Hdev.
  - rewrite lookup_singleton_eq. split; [intros _; exact Hdev | eauto].
  - rewrite lookup_empty.
    rewrite !lookup_insert_ne, lookup_singleton_ne by discriminate.
    split; [intros [v Hv]; discriminate Hv | intros H; contradiction].
Qed.


(** A body that does not parse: the parser's error carries status 400, and
    the error handler answers with it. *)
Example malformed_body_is_400 :
  let err := set_statusCode 400%float (new_Error "Unexpected end of JSON input") in
  let c := {| random_toString16 := "0.8f3a"; Date_now := 0 |} in
  let res := fst (app None c (Refused err) (Sample.request_for "" ∅) Sample.mockWorld) in
  status res = VNum 400%float /\
  json res =
    VObj (<["message" := VStr "Unexpected end of JSON input"]>
            (<["statusCode" := VNum 400%float]> {[ "status" := VStr "error" ]})).
Proof. vm_compute. split; reflexivity. Qed.

(** ** Price filters *)

Lemma filter_none {A} (f : A -> bool) (l : list A) :
  (forall x, f x = false) -> List.filter f l = [].
Proof.
  intros H. induction l as [|x l IH]; simpl; [reflexivity|]. rewrite H. exact IH.
Qed.

Lemma filter_sublist {A} (f : A -> bool) (l : list A) : sublist (List.filter f l) l.
Proof.
  induction l as [|x l IH]; simpl; [constructor|].
  destruct (f x); [apply sublist_skip | apply sublist_cons]; exact IH.
Qed.

Lemma Prim2SF_NaN (x : number) : PrimFloat.is_nan x = true -> Prim2SF x = S754_nan.
Proof. intros H. unfold Prim2SF. rewrite H. reflexivity. Qed.

(** No Number is [>=] NaN, and NaN is [>=] no Number. *)
Lemma Number_ge_NaN (x y : number) :
  PrimFloat.is_nan y = true -> Number_ge x y = false /\ Number_ge y x = false.
Proof.
  intros H. unfold Number_ge.
  rewrite !FloatAxioms.compare_spec, (Prim2SF_NaN y H).
  destruct (Prim2SF x) as [[]|[]| |[] m e]; split; reflexivity.
Qed.

Lemma Number_ge_ranks (x y : number) :
  Number_ge x y = true ->
  exists kx ky, rank (Prim2SF x) = Some kx /\ rank (Prim2SF y) = Some ky /\
                lex kx ky <> Lt.
Proof.
  unfold Number_ge. rewrite FloatAxioms.compare_spec, SFcompare_rank.
  destruct (rank (Prim2SF x)) as [kx|], (rank (Prim2SF y)) as [ky|];
    simpl; try discriminate.
  intros H. exists kx, ky. repeat split. destruct (lex kx ky); congruence.
Qed.

Lemma Number_gt_ranks (x y : number) :
  Number_gt x y = true ->
  exists kx ky, rank (Prim2SF x) = Some kx /\ rank (Prim2SF y) = Some ky /\
                lex kx ky = Gt.
Proof.
  unfold Number_gt. rewrite FloatAxioms.compare_spec, SFcompare_rank.
  destruct (rank (Prim2SF x)) as [kx|], (rank (Prim2SF y)) as [ky|];
    simpl; try discriminate.
  intros H. exists kx, ky. repeat split.
  rewrite (lex_antisym ky kx). destruct (lex ky kx); simpl; congruence.
Qed.

(** A comparison with a bound passes on no record when the bound is NaN. *)
Lemma passes_at_least_NaN (q : option qvalue) (p : record) (bound : number) :
  parseFloat_query q = inr bound ->
  PrimFloat.is_nan bound = true ->
  passes (at_least q p) = false.
Proof.
  intros Hq Hn. unfold at_least, ge_Number. rewrite Hq.
  destruct (ToNumber (Get p "price")); [reflexivity|]. simpl.
  exact (proj1 (Number_ge_NaN _ _ Hn)).
Qed.

Lemma passes_at_most_NaN (q : option qvalue) (p : record) (bound : number) :
  parseFloat_query q = inr bound ->
  PrimFloat.is_nan bound = true ->
  passes (at_most q p) = false.
Proof.
  intros Hq Hn. unfold at_most, le_Number. rewrite Hq.
  destruct (ToNumber (Get p "price")); [reflexivity|]. simpl.
  change (Number_le ?a ?b) with (Number_ge b a).
  exact (proj2 (Number_ge_NaN _ _ Hn)).
Qed.

(** X15. A supplied minPrice or maxPrice that parseFloat cannot read (it
    gives NaN) is not skipped: every comparison with it fails, and unless a
    price test throws the list comes back empty, with results 0, whatever
    the collection holds. *)
Theorem unreadable_price_lists_nothing
    (req : request) (w : world) (products : list record) :
  disk w !! "products.json" = Some (Json products) ->
  (supplied req "minPrice" = true /\
   exists bound, parseFloat_query (query req !! "minPrice") = inr bound /\
                 PrimFloat.is_nan bound = true) \/
  (supplied req "maxPrice" = true /\
   exists bound, parseFloat_query (query req !! "maxPrice") = inr bound /\
                 PrimFloat.is_nan bound = true) ->
  getAllProducts req w =
    if existsb (price_test_throws req) products
    then (Next (thrown TypeError), w)
    else (res_json (success_list "products" []), w).
Proof.
  intros Hload Hnan. rewrite (getAllProducts_run req w products Hload).
  destruct (existsb _ _); [reflexivity|].
  rewrite filter_none; [reflexivity|].
  intros p. unfold satisfies_all.
  destruct Hnan as [(Hs & bound & Hq & Hn) | (Hs & bound & Hq & Hn)]; rewrite Hs.
  - unfold satisfies_minPrice. rewrite (passes_at_least_NaN _ p _ Hq Hn).
    rewrite andb_false_r. reflexivity.
  - unfold satisfies_maxPrice. rewrite (passes_at_most_NaN _ p _ Hq Hn).
    apply andb_false_r.
Qed.

Lemma unreadable_price_lists_nothing_witness :
  let req := Sample.request_query {[ "minPrice" := QStr "cheap" ]} in
  existsb (price_test_throws req) Sample.mockProducts = false /\
  getAllProducts req Sample.mockWorld =
    if existsb (price_test_throws req) Sample.mockProducts
    then (Next (thrown TypeError), Sample.mockWorld)
    else (res_json (success_list "products" []), Sample.mockWorld).
Proof.
  intros req. split; [reflexivity|].
  apply (unreadable_price_lists_nothing req Sample.mockWorld Sample.mockProducts).
  - vm_compute. reflexivity.
  - left. split; [reflexivity|]. eexists. split; vm_compute; reflexivity.
Defined.

(** X16. When both price bounds are supplied and the minPrice read is
    greater than the maxPrice read, no record passes both tests: unless a
    price test throws, the list comes back empty. *)
Theorem empty_price_window
    (req : request) (w : world) (products : list record) (lo hi : number) :
  disk w !! "products.json" = Some (Json products) ->
  supplied req "minPrice" = true ->
  supplied req "maxPrice" = true ->
  parseFloat_query (query req !! "minPrice") = inr lo ->
  parseFloat_query (query req !! "maxPrice") = inr hi ->
  Number_gt lo hi = true ->
  getAllProducts req w =
    if existsb (price_test_throws req) products
    then (Next (thrown TypeError), w)
    else (res_json (success_list "products" []), w).
Proof.
  intros Hload Hmin Hmax Hqlo Hqhi Hgt.
  rewrite (getAllProducts_run req w products Hload).
  destruct (existsb _ _); [reflexivity|].
  rewrite filter_none; [reflexivity|].
  intros p. unfold satisfies_all. rewrite Hmin, Hmax.
  destruct (satisfies_minPrice req p) eqn:Hlo;
    [|rewrite andb_false_r; reflexivity].
  destruct (satisfies_maxPrice req p) eqn:Hhi; [|apply andb_false_r].
  exfalso. unfold satisfies_minPrice, at_least, ge_Number in Hlo.
  unfold satisfies_maxPrice, at_most, le_Number in Hhi.
  rewrite Hqlo in Hlo. rewrite Hqhi in Hhi.
  destruct (ToNumber (Get p "price")) as [e|price]; [discriminate Hlo|].
  simpl in Hlo, Hhi.
  change (Number_le ?a ?b) with (Number_ge b a) in Hhi.
  destruct (Number_ge_ranks _ _ Hlo) as (kp & klo & Hkp & Hklo & Hple).
  destruct (Number_ge_ranks _ _ Hhi) as (khi & kp' & Hkhi & Hkp' & Hhip).
  destruct (Number_gt_ranks _ _ Hgt) as (klo' & khi' & Hklo' & Hkhi' & Hlohi).
  rewrite Hkp in Hkp'. injection Hkp' as <-.
  rewrite Hklo in Hklo'. injection Hklo' as <-.
  rewrite Hkhi in Hkhi'. injection Hkhi' as <-.
  apply (lex_trans khi kp klo Hhip Hple).
  rewrite (lex_antisym klo khi), Hlohi. reflexivity.
Qed.

Lemma empty_price_window_witness :
  let req :=
    Sample.request_query (<["minPrice" := QStr "100"]> {[ "maxPrice" := QStr "50" ]}) in
  existsb (price_test_throws req) Sample.mockProducts = false /\
  getAllProducts req Sample.mockWorld =
    if existsb (price_test_throws req) Sample.mockProducts
    then (Next (thrown TypeError), Sample.mockWorld)
    else (res_json (success_list "products" []), Sample.mockWorld).
Proof.
  intros req. split; [reflexivity|].
  apply (empty_price_window req Sample.mockWorld Sample.mockProducts 100%float 50%float);
    vm_compute; reflexivity.
Defined.

(** X17. The list of products never invents, repeats or reorders records:
    unless a price test throws, what it answers is a sublist of the
    collection; and it is the whole collection when no filter is supplied. *)
Theorem listing_is_a_sublist (req : request) (w : world) (products : list record) :
  disk w !! "products.json" = Some (Json products) ->
  exists result : list record,
    getAllProducts req w =
      (if existsb (price_test_throws req) products
       then (Next (thrown TypeError), w)
       else (res_json (success_list "products" result), w)) /\
    sublist result products /\
    ((forall name, supplied req name = false) ->
     getAllProducts req w = (res_json (success_list "products" products), w)).
Proof.
  intros Hload. exists (List.filter (satisfies_all req) products).
  split; [exact (getAllProducts_run req w products Hload)|].
  split; [apply filter_sublist|].
  intros Hnone.
  rewrite (getAllProducts_ok req w products Hload (no_filter_no_throw req _ Hnone)).
  rewrite (no_filter req _ Hnone). reflexivity.
Qed.

Lemma listing_is_a_sublist_witness :
  let req := Sample.request_query {[ "maxPrice" := QStr "100" ]} in
  exists result : list record,
    getAllProducts req Sample.mockWorld =
      (if existsb (price_test_throws req) Sample.mockProducts
       then (Next (thrown TypeError), Sample.mockWorld)
       else (res_json (success_list "products" result), Sample.mockWorld)) /\
    sublist result Sample.mockProducts /\
    ((forall name, supplied req name = false) ->
     getAllProducts req Sample.mockWorld =
       (res_json (success_list "products" Sample.mockProducts), Sample.mockWorld)).
Proof.
  intros req.
  apply (listing_is_a_sublist req Sample.mockWorld Sample.mockProducts).
  vm_compute. reflexivity.
Defined.

(** ** Generated ids *)

(** X18. A generated id is never the empty string, so it is truthy; and
    two generated ids with the same random part are equal only if they were
    made at the same [Date.now()]: the time in base 16 that ends the id
    tells them apart. *)
Theorem generateRandomId_tells_times_apart (c1 c2 : clock) :
  generateRandomId c1 <> EmptyString /\
  ToBoolean (VStr (generateRandomId c1)) = true /\
  (random_toString16 c1 = random_toString16 c2 ->
   generateRandomId c1 = generateRandomId c2 ->
   Date_now c1 = Date_now c2).
Proof.
  assert (Hne : generateRandomId c1 <> EmptyString)
    by (apply append_nonempty, toString16_nonempty).
  split; [exact Hne|]. split.
  - simpl. destruct (generateRandomId c1); [congruence | reflexivity].
  - unfold generateRandomId. intros -> H.
    apply toString16_inj. exact (append_inv_head _ _ _ H).
Qed.
